(** * DesignBriefInterpreter: the keyword resolver of RhinoMCP

    A shallow embedding of [rhino_mcp/design_brief_interpreter.py]:
    the three tables built by [__init__], [_extract_keywords],
    [_derive_parameters], [_generate_operations] and [interpret_brief].

    Python objects are modelled as they are used by the module:
    - a [str] is a [string] whose characters are code points below 256,
      on which [str.lower] is exact;
    - every [dict] is an object in a heap, addressed by a reference, and is
      kept as an insertion-ordered association list (the iteration order of
      [dict.items()]);
    - exceptions and the logger are effects of a small state-and-error monad.
*)

From Stdlib Require Import String Ascii List Bool ZArith QArith Lia Arith.
Import ListNotations.
Local Open Scope string_scope.
Local Open Scope nat_scope.

(* ===================================================================== *)
(** ** Strings: [str.lower] and containment                               *)
(* ===================================================================== *)

Module Str.

(** [str.lower] on one code point below 256: A-Z, and the Latin-1 capitals
    U+00C0..U+00DE except the multiplication sign U+00D7, move up by 32. *)
Definition lower_char (c : ascii) : ascii :=
  let n := nat_of_ascii c in
  if ((65 <=? n) && (n <=? 90))
     || ((192 <=? n) && (n <=? 222) && negb (n =? 215))
  then ascii_of_nat (n + 32)
  else c.

Fixpoint lower (s : string) : string :=
  match s with
  | EmptyString => EmptyString
  | String c r => String (lower_char c) (lower r)
  end.

(** [s.startswith(w)] *)
Fixpoint startswith (w s : string) : bool :=
  match w, s with
  | EmptyString, _ => true
  | String a w', String b s' => Ascii.eqb a b && startswith w' s'
  | String _ _, EmptyString => false
  end.

(** [w in s] for strings, as a proposition. *)
Definition contains (w s : string) : Prop :=
  exists pre post, s = pre ++ w ++ post.

(** [w in s], executable. *)
Fixpoint containsb (w s : string) : bool :=
  startswith w s ||
  match s with
  | EmptyString => false
  | String _ r => containsb w r
  end.

(** [bytes.lower] touches the ASCII capitals only. *)
Definition lower_byte (c : ascii) : ascii :=
  let n := nat_of_ascii c in
  if (65 <=? n) && (n <=? 90) then ascii_of_nat (n + 32) else c.

Fixpoint lower_bytes (s : string) : string :=
  match s with
  | EmptyString => EmptyString
  | String c r => String (lower_byte c) (lower_bytes r)
  end.

End Str.

(* ===================================================================== *)
(** ** The regular expressions of [self.patterns]                         *)
(* ===================================================================== *)

Module Re.

(** The patterns of the module are all of one shape: a single capturing
    group of literal alternatives, [(w1|w2|...|wn)].  [parse_group] reads
    that shape from the pattern's source text; anything else is outside the
    modelled fragment. *)

Definition is_meta (c : ascii) : bool :=
  existsb (Ascii.eqb c) (list_ascii_of_string ".^$*+?{}[]\|()").

Fixpoint parse_alts (s cur : string) : option (list string) :=
  match s with
  | EmptyString => None
  | String c rest =>
      if Ascii.eqb c ")" then
        match rest, cur with
        | EmptyString, String _ _ => Some [cur]
        | _, _ => None
        end
      else if Ascii.eqb c "|" then
        match cur with
        | EmptyString => None
        | String _ _ => option_map (cons cur) (parse_alts rest EmptyString)
        end
      else if is_meta c then None
      else parse_alts rest (cur ++ String c EmptyString)
  end.

Definition parse_group (pattern : string) : option (list string) :=
  match pattern with
  | String c rest => if Ascii.eqb c "(" then parse_alts rest EmptyString else None
  | EmptyString => None
  end.

(** The alternative the backtracking matcher takes at the start of [text]:
    the first one, in the order written, that matches there. *)
Definition first_match (alts : list string) (text : string) : option string :=
  find (fun w => Str.startswith w text) alts.

(** The scan of [re.findall]: left to right, non-overlapping; after a match
    of [w] the scan resumes behind it ([skip] counts the characters of the
    match still to pass), otherwise one character further.  With one
    capturing group the result lists the group's text. *)
Fixpoint scan (alts : list string) (skip : nat) (text : string) : list string :=
  match text with
  | EmptyString => []
  | String _ rest =>
      match skip with
      | S k => scan alts k rest
      | O =>
          match first_match alts text with
          | Some w => w :: scan alts (String.length w - 1) rest
          | None => scan alts 0 rest
          end
      end
  end.

End Re.

(* ===================================================================== *)
(** ** Values, dictionaries, exceptions                                   *)
(* ===================================================================== *)

Definition loc := nat.

#[warnings="-register-all"]
Inductive pyval : Type :=
| PyNone
| PyBool (b : bool)
| PyInt (z : Z)
| PyFloat (q : Q)
| PyStr (s : string)
| PyBytes (s : string)
| PyList (l : list pyval)
| PyRef (l : loc).

(** A [dict] with string keys, in insertion order. *)
Definition dict := list (string * pyval).

Fixpoint dict_get (d : dict) (k : string) : option pyval :=
  match d with
  | [] => None
  | (k', v) :: r => if String.eqb k' k then Some v else dict_get r k
  end.

(** [d[k] = v]: an existing key keeps its place, a new key goes last. *)
Fixpoint dict_set (d : dict) (k : string) (v : pyval) : dict :=
  match d with
  | [] => [(k, v)]
  | (k', v') :: r =>
      if String.eqb k' k then (k', v) :: r else (k', v') :: dict_set r k v
  end.

Definition dict_keys (d : dict) : list string := map fst d.

Definition dict_mem (d : dict) (k : string) : bool :=
  match dict_get d k with Some _ => true | None => false end.

Inductive exn : Type :=
| AttributeError (msg : string)
| TypeError (msg : string)
| KeyError (key : string)
| ValueError (msg : string)
| ReError (msg : string)
| RuntimeError (msg : string).

(** [str(e)]; a [KeyError] prints the repr of its key. *)
Definition exn_str (e : exn) : string :=
  match e with
  | AttributeError m | TypeError m | ValueError m | ReError m | RuntimeError m => m
  | KeyError k => "'" ++ k ++ "'"
  end.

(** [type(v).__name__] *)
Definition type_name (v : pyval) : string :=
  match v with
  | PyNone => "NoneType"
  | PyBool _ => "bool"
  | PyInt _ => "int"
  | PyFloat _ => "float"
  | PyStr _ => "str"
  | PyBytes _ => "bytes"
  | PyList _ => "list"
  | PyRef _ => "dict"
  end.


Inductive result (A : Type) : Type :=
| Ok (a : A)
| Raise (e : exn).
Arguments Ok {A} a.
Arguments Raise {A} e.

(* ===================================================================== *)
(** ** The interpreter's effects: a heap of dicts, a log, exceptions      *)
(* ===================================================================== *)

Inductive log_entry : Type :=
| LogInfo (fmt : string) (arg : pyval)
| LogDebug (fmt : string) (arg : pyval)
| LogError (fmt : string) (arg : string).

Record state : Type := mkState {
  heap : list dict;
  log : list log_entry
}.

Definition M (A : Type) : Type := state -> result A * state.

Definition ret {A} (a : A) : M A := fun st => (Ok a, st).

Definition bind {A B} (m : M A) (k : A -> M B) : M B :=
  fun st =>
    match m st with
    | (Ok a, st') => k a st'
    | (Raise e, st') => (Raise e, st')
    end.

Definition raise {A} (e : exn) : M A := fun st => (Raise e, st).

(** [try: m  except Exception as e: h e] *)
Definition try_except {A} (m : M A) (h : exn -> M A) : M A :=
  fun st =>
    match m st with
    | (Ok a, st') => (Ok a, st')
    | (Raise e, st') => h e st'
    end.

Declare Scope py_scope.
Delimit Scope py_scope with py.
Notation "x <- c ;; k" := (bind c (fun x => k))
  (at level 61, c at next level, right associativity) : py_scope.
Notation "' pat <- c ;; k" := (bind c (fun x => match x with pat => k end))
  (at level 61, pat pattern, c at next level, right associativity) : py_scope.
Notation "c ;; k" := (bind c (fun _ => k))
  (at level 61, right associativity) : py_scope.
Local Open Scope py_scope.

Fixpoint for_each {A} (l : list A) (body : A -> M unit) : M unit :=
  match l with
  | [] => ret tt
  | x :: r => body x ;; for_each r body
  end.

Definition logger (e : log_entry) : M unit :=
  fun st => (Ok tt, mkState (heap st) (log st ++ [e])).

(** A dict display [{...}]: a new object behind the existing ones. *)
Definition new_dict (d : dict) : M pyval :=
  fun st => (Ok (PyRef (length (heap st))), mkState (heap st ++ [d]) (log st)).

Fixpoint heap_set (h : list dict) (l : loc) (d : dict) : list dict :=
  match h, l with
  | [], _ => []
  | _ :: r, O => d :: r
  | x :: r, S l' => x :: heap_set r l' d
  end.

(** The dict behind a value; only dicts live in the heap. *)
Definition deref (on_other : pyval -> exn) (o : pyval) : M dict :=
  match o with
  | PyRef l =>
      fun st =>
        match nth_error (heap st) l with
        | Some d => (Ok d, st)
        | None => (Raise (RuntimeError "dangling reference"), st)
        end
  | _ => raise (on_other o)
  end.

Definition no_attribute (name : string) (o : pyval) : exn :=
  AttributeError ("'" ++ type_name o ++ "' object has no attribute '" ++ name ++ "'").

Definition not_subscriptable (o : pyval) : exn :=
  TypeError ("'" ++ type_name o ++ "' object is not subscriptable").

Definition no_item_assignment (o : pyval) : exn :=
  TypeError ("'" ++ type_name o ++ "' object does not support item assignment").

Definition not_iterable (o : pyval) : exn :=
  TypeError ("'" ++ type_name o ++ "' object is not iterable").

(** [o[k]] *)
Definition getitem (o : pyval) (k : string) : M pyval :=
  d <- deref not_subscriptable o ;;
  match dict_get d k with
  | Some v => ret v
  | None => raise (KeyError k)
  end.

(** [o.get(k, dflt)] *)
Definition dict_getd (o : pyval) (k : string) (dflt : pyval) : M pyval :=
  d <- deref (no_attribute "get") o ;;
  match dict_get d k with
  | Some v => ret v
  | None => ret dflt
  end.

(** [o[k] = v] *)
Definition setitem (o : pyval) (k : string) (v : pyval) : M unit :=
  d <- deref no_item_assignment o ;;
  match o with
  | PyRef l => fun st => (Ok tt, mkState (heap_set (heap st) l (dict_set d k v)) (log st))
  | _ => ret tt
  end.

(** [o.items()], read when the loop over it starts. *)
Definition dict_items (o : pyval) : M (list (string * pyval)) :=
  deref (no_attribute "items") o.

(** [o.copy()]: a new dict with the same entries. *)
Definition dict_copy (o : pyval) : M pyval :=
  d <- deref (no_attribute "copy") o ;;
  new_dict d.

(** [k in o] for a dict [o]. *)
Definition py_in (k : pyval) (o : pyval) : M bool :=
  d <- deref not_iterable o ;;
  match k with
  | PyStr s => ret (dict_mem d s)
  | PyList _ | PyRef _ =>
      raise (TypeError ("unhashable type: '" ++ type_name k ++ "'"))
  | _ => ret false
  end.

(** [o[k]] with a key that is a value. *)
Definition getitem_v (o : pyval) (k : pyval) : M pyval :=
  match k with
  | PyStr s => getitem o s
  | PyList _ | PyRef _ =>
      raise (TypeError ("unhashable type: '" ++ type_name k ++ "'"))
  | _ => d <- deref not_subscriptable o ;; raise (KeyError (type_name k))
  end.

(** [for x in o] over a list value. *)
Definition iter_list (o : pyval) : M (list pyval) :=
  match o with
  | PyList l => ret l
  | _ => raise (not_iterable o)
  end.

(** [o.lower()] *)
Definition call_lower (o : pyval) : M pyval :=
  match o with
  | PyStr s => ret (PyStr (Str.lower s))
  | PyBytes s => ret (PyBytes (Str.lower_bytes s))
  | _ => raise (no_attribute "lower" o)
  end.

(** [re.findall(pattern, text)] for the patterns of the module. *)
Definition re_findall (pattern text : pyval) : M (list pyval) :=
  match pattern with
  | PyStr p =>
      match Re.parse_group p with
      | Some alts =>
          match text with
          | PyStr t => ret (map PyStr (Re.scan alts 0 t))
          | PyBytes _ =>
              raise (TypeError "cannot use a string pattern on a bytes-like object")
          | _ =>
              raise (TypeError ("expected string or bytes-like object, got '"
                                ++ type_name text ++ "'"))
          end
      | None => raise (ReError "pattern outside the modelled fragment")
      end
  | _ => raise (TypeError "first argument must be string or compiled pattern")
  end.

(** Truth value of a list: non-empty. *)
Definition list_truth (l : list pyval) : bool :=
  match l with [] => false | _ :: _ => true end.

(* ===================================================================== *)
(** ** class DesignBriefInterpreter                                       *)
(* ===================================================================== *)

(** The object [self]: its three attributes, each a reference to a dict. *)
Record interp : Type := mkInterp {
  default_params : pyval;
  keyword_mappings : pyval;
  patterns : pyval
}.

Definition default_params_literal : dict :=
  [ ("grid_size", PyFloat 1.0%Q);
    ("floor_height", PyFloat 3.0%Q);
    ("panel_depth", PyFloat 0.2%Q);
    ("facade_offset", PyFloat 0.5%Q);
    ("story_count", PyInt 5);
    ("responsive_panels", PyBool true);
    ("panel_density", PyFloat 0.8%Q);
    ("view_priority", PyFloat 0.7%Q);
    ("sun_priority", PyFloat 0.8%Q);
    ("panel_rotation_limit", PyInt 45);
    ("panel_type", PyStr "rectangular");
    ("material", PyStr "glass");
    ("structural_system", PyStr "frame") ].

Definition keyword_mappings_literal : list (string * dict) :=
  [ ("high-rise", [("story_count", PyInt 30); ("panel_density", PyFloat 0.9%Q)]);
    ("mid-rise", [("story_count", PyInt 15); ("panel_density", PyFloat 0.8%Q)]);
    ("low-rise", [("story_count", PyInt 5); ("panel_density", PyFloat 0.7%Q)]);
    ("tower", [("story_count", PyInt 40); ("panel_density", PyFloat 0.85%Q);
               ("form", PyStr "tower")]);

    ("dynamic", [("responsive_panels", PyBool true); ("panel_rotation_limit", PyInt 60)]);
    ("static", [("responsive_panels", PyBool false); ("panel_rotation_limit", PyInt 0)]);
    ("kinetic", [("responsive_panels", PyBool true); ("panel_rotation_limit", PyInt 90)]);
    ("adaptive", [("responsive_panels", PyBool true); ("panel_rotation_limit", PyInt 75)]);
    ("responsive", [("responsive_panels", PyBool true)]);
    ("louvres", [("panel_type", PyStr "louvre"); ("panel_density", PyFloat 0.9%Q)]);
    ("sunshade", [("panel_type", PyStr "louvre"); ("sun_priority", PyFloat 0.9%Q);
                  ("view_priority", PyFloat 0.5%Q)]);

    ("sun angle", [("sun_priority", PyFloat 0.9%Q)]);
    ("solar", [("sun_priority", PyFloat 0.9%Q)]);
    ("daylight", [("sun_priority", PyFloat 0.8%Q); ("panel_type", PyStr "perforated")]);
    ("shadowing", [("sun_priority", PyFloat 0.9%Q); ("panel_density", PyFloat 0.9%Q)]);

    ("views", [("view_priority", PyFloat 0.9%Q)]);
    ("framing views", [("view_priority", PyFloat 0.95%Q); ("panel_density", PyFloat 0.7%Q)]);
    ("transparent", [("material", PyStr "glass"); ("panel_density", PyFloat 0.6%Q)]);
    ("opaque", [("material", PyStr "solid"); ("panel_density", PyFloat 0.9%Q)]);

    ("glass", [("material", PyStr "glass")]);
    ("metal", [("material", PyStr "metal")]);
    ("wood", [("material", PyStr "wood")]);
    ("aluminum", [("material", PyStr "aluminum")]);
    ("concrete", [("material", PyStr "concrete")]);

    ("dense", [("panel_density", PyFloat 0.9%Q)]);
    ("sparse", [("panel_density", PyFloat 0.5%Q)]);
    ("porous", [("panel_density", PyFloat 0.6%Q); ("panel_type", PyStr "perforated")]);
    ("pattern", [("panel_type", PyStr "patterned")]);
    ("parametric", [("panel_type", PyStr "parametric")]);

    ("lightweight", [("structural_system", PyStr "lightweight")]);
    ("modular", [("grid_size", PyFloat 1.2%Q); ("structural_system", PyStr "modular")]);
    ("prefab", [("structural_system", PyStr "modular")]) ].

Definition patterns_literal : dict :=
  [ ("building_type", PyStr "(high-rise|mid-rise|low-rise|tower|building)");
    ("facade_type", PyStr "(dynamic|kinetic|adaptive|responsive|static|louvres|sunshade)");
    ("environment", PyStr "(sun angle|solar|daylight|shadowing|climate|weather|temperature)");
    ("views", PyStr "(views|framing views|panorama|outlook|vista)");
    ("materials", PyStr "(glass|metal|wood|aluminum|concrete|transparent|opaque)");
    ("pattern", PyStr "(dense|sparse|porous|pattern|parametric)");
    ("structure", PyStr "(lightweight|modular|prefab)") ].

(** A dict display whose values are dict displays: the inner dicts are built
    in the order written, then the outer one. *)
Fixpoint new_nested (entries : list (string * dict)) : M dict :=
  match entries with
  | [] => ret []
  | (k, d) :: r =>
      v <- new_dict d ;;
      rest <- new_nested r ;;
      ret ((k, v) :: rest)
  end.

Definition __init__ : M interp :=
  dp <- new_dict default_params_literal ;;
  inner <- new_nested keyword_mappings_literal ;;
  km <- new_dict inner ;;
  pt <- new_dict patterns_literal ;;
  ret (mkInterp dp km pt).

Definition _extract_keywords (self : interp) (brief : pyval) : M pyval :=
  results <- new_dict [] ;;
  brief_lower <- call_lower brief ;;
  items <- dict_items (patterns self) ;;
  for_each items (fun '(category, pattern) =>
    matches <- re_findall pattern brief_lower ;;
    if list_truth matches
    then setitem results category (PyList matches)
    else ret tt) ;;
  ret results.

Definition _derive_parameters (self : interp) (keywords : pyval) : M pyval :=
  params <- dict_copy (default_params self) ;;
  items <- dict_items keywords ;;
  for_each items (fun '(category, words) =>
    ws <- iter_list words ;;
    for_each ws (fun word =>
      known <- py_in word (keyword_mappings self) ;;
      if known : bool then
        rule <- getitem_v (keyword_mappings self) word ;;
        entries <- dict_items rule ;;
        for_each entries (fun '(key, value) => setitem params key value)
      else ret tt)) ;;
  ret params.

(** The resolver: extraction followed by derivation. *)
Definition resolve (self : interp) (brief : pyval) : M pyval :=
  keywords <- _extract_keywords self brief ;;
  _derive_parameters self keywords.

(** The first statements of the [try] block of [interpret_brief]: the
    resolver with its log lines. *)
Definition resolve_logged (self : interp) (brief : pyval) : M (pyval * pyval) :=
  logger (LogInfo "Processing design brief: {0}" brief) ;;
  keywords <- _extract_keywords self brief ;;
  logger (LogDebug "Extracted keywords: {0}" keywords) ;;
  params <- _derive_parameters self keywords ;;
  logger (LogDebug "Derived parameters: {0}" params) ;;
  ret (keywords, params).

(** Truth value of an object, as [if] takes it. *)
Definition py_truth (v : pyval) : M bool :=
  match v with
  | PyNone => ret false
  | PyBool b => ret b
  | PyInt z => ret (negb (Z.eqb z 0))
  | PyFloat q => ret (negb (Z.eqb (Qnum q) 0))
  | PyStr s | PyBytes s => ret (negb (String.eqb s EmptyString))
  | PyList l => ret (list_truth l)
  | PyRef _ =>
      d <- deref not_iterable v ;;
      ret (match d with [] => false | _ :: _ => true end)
  end.

(** [v == s] for a string literal [s]. *)
Definition py_eq_str (v : pyval) (s : string) : bool :=
  match v with
  | PyStr t => String.eqb t s
  | _ => false
  end.

(** One entry of an operation list: [{"operation": name, "params": {...}}]. *)
Definition new_operation (name : string) (params : pyval) : M pyval :=
  new_dict [("operation", PyStr name); ("params", params)].

Definition _generate_facade_operations (self : interp) (params : pyval)
  : M (list pyval) :=
  story_count <- getitem params "story_count" ;;
  floor_height <- getitem params "floor_height" ;;
  grid_size <- getitem params "grid_size" ;;
  p1 <- new_dict [("story_count", story_count); ("floor_height", floor_height);
                  ("grid_size", grid_size)] ;;
  op1 <- new_operation "create_building_envelope" p1 ;;
  offset <- getitem params "facade_offset" ;;
  panel_type <- getitem params "panel_type" ;;
  panel_density <- getitem params "panel_density" ;;
  material <- getitem params "material" ;;
  structural_system <- getitem params "structural_system" ;;
  p2 <- new_dict [("offset", offset); ("panel_type", panel_type);
                  ("panel_density", panel_density); ("material", material);
                  ("structural_system", structural_system)] ;;
  op2 <- new_operation "create_facade_system" p2 ;;
  responsive <- getitem params "responsive_panels" ;;
  is_responsive <- py_truth responsive ;;
  analysis <-
    (if is_responsive : bool then
       sun <- getitem params "sun_priority" ;;
       p3 <- new_dict [("priority", sun)] ;;
       op3 <- new_operation "analyze_sun_angles" p3 ;;
       view <- getitem params "view_priority" ;;
       p4 <- new_dict [("priority", view)] ;;
       op4 <- new_operation "analyze_view_corridors" p4 ;;
       limit <- getitem params "panel_rotation_limit" ;;
       sun' <- getitem params "sun_priority" ;;
       view' <- getitem params "view_priority" ;;
       p5 <- new_dict [("rotation_limit", limit); ("sun_priority", sun');
                       ("view_priority", view')] ;;
       op5 <- new_operation "generate_panel_rotations" p5 ;;
       ret [op3; op4; op5]
     else ret []) ;;
  op6 <- new_operation "generate_facade_geometry" params ;;
  ret ([op1; op2] ++ analysis ++ [op6])%list.

(** The structured record [interpret_brief] returns, and the record of its
    [except] branch. *)
Inductive response : Type :=
| Interpreted (brief keywords parameters : pyval) (operations : list pyval)
              (rhino grasshopper : string)
| ErrorRecord (error : string) (brief : pyval).

Section Downstream.

(** The operation generators of the other design domains and the two code
    generators assemble template text for the CAD host; they are taken as
    they come. *)
Variable _generate_floor_plan_operations : interp -> pyval -> M (list pyval).
Variable _generate_urban_operations : interp -> pyval -> M (list pyval).
Variable _generate_landscape_operations : interp -> pyval -> M (list pyval).
Variable _generate_structure_operations : interp -> pyval -> M (list pyval).
Variable _generate_parametric_form_operations : interp -> pyval -> M (list pyval).
Variable _generate_rhino_code : interp -> list pyval -> M string.
Variable _generate_grasshopper_code : interp -> list pyval -> M string.

Definition _generate_operations (self : interp) (params : pyval)
  : M (list pyval) :=
  design_domain <- dict_getd params "design_domain" (PyStr "facade") ;;
  grid_size <- getitem params "grid_size" ;;
  material <- getitem params "material" ;;
  color_scheme <- getitem params "color_scheme" ;;
  p0 <- new_dict [("design_domain", design_domain); ("grid_size", grid_size);
                  ("material", material); ("color_scheme", color_scheme)] ;;
  op0 <- new_operation "initialize_design" p0 ;;
  domain_ops <-
    (if py_eq_str design_domain "facade" then
       _generate_facade_operations self params
     else if py_eq_str design_domain "floor_plan" then
       _generate_floor_plan_operations self params
     else if py_eq_str design_domain "urban" then
       _generate_urban_operations self params
     else if py_eq_str design_domain "landscape" then
       _generate_landscape_operations self params
     else if py_eq_str design_domain "structure" then
       _generate_structure_operations self params
     else if py_eq_str design_domain "parametric_form" then
       _generate_parametric_form_operations self params
     else ret []) ;;
  pN <- new_dict [("design_domain", design_domain); ("export_format", PyStr "3dm");
                  ("add_metadata", PyBool true)] ;;
  opN <- new_operation "finalize_design" pN ;;
  ret ([op0] ++ domain_ops ++ [opN])%list.

(** The statements of the [try] block behind keyword resolution: operation
    generation, its log line, and the two code generators. *)
Definition generate (self : interp) (params : pyval)
  : M (list pyval * string * string) :=
  operations <- _generate_operations self params ;;
  logger (LogDebug "Generated {0} operations" (PyInt (Z.of_nat (length operations)))) ;;
  rhino_code <- _generate_rhino_code self operations ;;
  grasshopper_code <- _generate_grasshopper_code self operations ;;
  ret (operations, rhino_code, grasshopper_code).

Definition interpret_brief (self : interp) (brief : pyval) : M response :=
  try_except
    ('(keywords, params) <- resolve_logged self brief ;;
     '(operations, rhino_code, grasshopper_code) <- generate self params ;;
     ret (Interpreted brief keywords params operations rhino_code grasshopper_code))
    (fun e =>
       logger (LogError "Error interpreting design brief: {0}" (exn_str e)) ;;
       ret (ErrorRecord (exn_str e) brief)).

End Downstream.

(* ===================================================================== *)
(** ** What the resolver computes, as functions of the text               *)
(* ===================================================================== *)

(** The alternatives of the seven pattern groups, in the order written. *)
Definition pattern_groups : list (string * list string) :=
  [ ("building_type", ["high-rise"; "mid-rise"; "low-rise"; "tower"; "building"]);
    ("facade_type", ["dynamic"; "kinetic"; "adaptive"; "responsive"; "static";
                     "louvres"; "sunshade"]);
    ("environment", ["sun angle"; "solar"; "daylight"; "shadowing"; "climate";
                     "weather"; "temperature"]);
    ("views", ["views"; "framing views"; "panorama"; "outlook"; "vista"]);
    ("materials", ["glass"; "metal"; "wood"; "aluminum"; "concrete"; "transparent";
                   "opaque"]);
    ("pattern", ["dense"; "sparse"; "porous"; "pattern"; "parametric"]);
    ("structure", ["lightweight"; "modular"; "prefab"]) ].

(** The matches of one group in a lower-cased text. *)
Definition group_matches (text : string) (g : string * list string) : list string :=
  Re.scan (snd g) 0 text.

(** The loop of [_extract_keywords] on the dict [results]. *)
Definition extract_step (text : string) (results : dict) (g : string * list string)
  : dict :=
  match group_matches text g with
  | [] => results
  | m => dict_set results (fst g) (PyList (map PyStr m))
  end.

Definition extract_dict (text : string) : dict :=
  fold_left (extract_step text) pattern_groups [].

(** The keywords in the order [_derive_parameters] visits them: group by
    group, each group's matches from first to last. *)
Definition matched_words (text : string) : list string :=
  flat_map (group_matches text) pattern_groups.

Definition rule_in (rules : list (string * dict)) (w : string) : option dict :=
  match find (fun e => String.eqb (fst e) w) rules with
  | Some e => Some (snd e)
  | None => None
  end.

(** The rule of a keyword in [self.keyword_mappings], if it has one. *)
Definition rule_of (w : string) : option dict :=
  rule_in keyword_mappings_literal w.

(** [for key, value in rule.items(): params[key] = value] *)
Definition apply_rule (params rule : dict) : dict :=
  fold_left (fun acc e => dict_set acc (fst e) (snd e)) rule params.

Definition apply_word (params : dict) (w : string) : dict :=
  match rule_of w with
  | Some rule => apply_rule params rule
  | None => params
  end.

Definition apply_words (params : dict) (words : list string) : dict :=
  fold_left apply_word words params.

(** The ParameterSet of a brief. *)
Definition resolved (brief : string) : dict :=
  apply_words default_params_literal (matched_words (Str.lower brief)).

(** What the rule of keyword [w] writes to [key], if anything. *)
Definition writes (w key : string) : option pyval :=
  match rule_of w with
  | Some rule => dict_get rule key
  | None => None
  end.

(** The value the last visited keyword with a rule for [key] writes to it. *)
Fixpoint last_writer (words : list string) (key : string) : option pyval :=
  match words with
  | [] => None
  | w :: later =>
      match last_writer later key with
      | Some v => Some v
      | None => writes w key
      end
  end.

(** Every alternative of every pattern group. *)
Definition all_alternatives : list string := flat_map snd pattern_groups.

Fixpoint nodupb (l : list string) : bool :=
  match l with
  | [] => true
  | x :: r => negb (existsb (String.eqb x) r) && nodupb r
  end.

(** The keys of [self.keyword_mappings]: the keywords that carry a rule. *)
Definition rule_keywords : list string := map fst keyword_mappings_literal.

(** The interpreter built by [__init__] is in place in a heap [h]: [h]
    extends the heap [__init__] left behind. *)
Definition installed (self : interp) (h : list dict) : Prop :=
  exists st0 st extra, __init__ st0 = (Ok self, st) /\ h = (heap st ++ extra)%list.


(** When is a keyword [w] found by the scan wherever it occurs?  No match of
    an alternative may run into an occurrence of [w] from the left, and [w]
    must be the alternative taken where it starts.  Both are checked on the
    alternatives alone. *)
Fixpoint drop (n : nat) (s : string) : string :=
  match n, s with
  | O, _ => s
  | S n', String _ r => drop n' r
  | S _, EmptyString => EmptyString
  end.

Definition comparable (a w : string) : bool :=
  Str.startswith a w || Str.startswith w a.

Definition no_overlap (a w : string) : bool :=
  forallb (fun j => negb (comparable (drop j a) w)) (seq 1 (String.length a - 1)).

Fixpoint taken_first (alts : list string) (w : string) : bool :=
  match alts with
  | [] => false
  | a :: r => if String.eqb a w then true else negb (comparable a w) && taken_first r w
  end.

Definition always_found (alts : list string) (w : string) : bool :=
  negb (String.eqb w EmptyString)
  && forallb (fun a => no_overlap a w) alts
  && taken_first alts w.

(** The non-empty match lists, group by group: the entries of the dict
    [_extract_keywords] returns. *)
Definition keyword_entries (text : string) : list (string * list string) :=
  filter (fun e => match snd e with [] => false | _ :: _ => true end)
         (map (fun g => (fst g, group_matches text g)) pattern_groups).

Definition entry_value (e : string * list string) : string * pyval :=
  (fst e, PyList (map PyStr (snd e))).

(** The keys a ParameterSet can have: those of the defaults, and ["form"]. *)
Definition default_keys : list string := dict_keys default_params_literal.

(** The outer dict of a nested display: each key refers to the inner dict
    built for it, the first one at [n]. *)
Fixpoint refs_from (n : loc) (entries : list (string * dict)) : dict :=
  match entries with
  | [] => []
  | (k, _) :: r => (k, PyRef n) :: refs_from (S n) r
  end.

(** The objects [__init__] adds to a heap of [n] objects. *)
Definition init_objects (n : nat) : list dict :=
  (default_params_literal :: map snd keyword_mappings_literal
   ++ [refs_from (S n) keyword_mappings_literal; patterns_literal])%list.

(** The three tables of [self] are in the heap [h] as [__init__] wrote
    them. *)
Definition tables_in (self : interp) (h : list dict) : Prop :=
  exists ld lk lp outer,
    self = mkInterp (PyRef ld) (PyRef lk) (PyRef lp) /\
    nth_error h ld = Some default_params_literal /\
    nth_error h lk = Some outer /\
    nth_error h lp = Some patterns_literal /\
    forall w,
      match dict_get outer w with
      | Some v => exists l r, v = PyRef l /\ nth_error h l = Some r /\ rule_of w = Some r
      | None => rule_of w = None
      end.

(** A pattern of [self.patterns] and the group of alternatives it denotes. *)
Definition denotes (item : string * pyval) (g : string * list string) : Prop :=
  exists p, item = (fst g, PyStr p) /\ Re.parse_group p = Some (snd g).

(** The shape of the key list of every ParameterSet. *)
Definition keys_ok (d : dict) : Prop :=
  dict_keys d = default_keys \/ dict_keys d = (default_keys ++ ["form"])%list.

(** Reading one parameter out of what a run of the resolver returned. *)
Definition parameter_set (out : result pyval * state) : option dict :=
  match out with
  | (Ok (PyRef p), st) => nth_error (heap st) p
  | _ => None
  end.

Definition lookup_param (out : result pyval * state) (key : string) : option pyval :=
  match parameter_set out with
  | Some d => dict_get d key
  | None => None
  end.

(** The interpreter object a program gets from [DesignBriefInterpreter()]
    when nothing else is in the heap, and the heap it then works in. *)
Definition boot_self : interp := mkInterp (PyRef 0) (PyRef 33) (PyRef 34).
Definition boot_state : state := mkState (init_objects 0) [].

(** The keywords other than "tower" whose rules write ["story_count"], and
    those whose rules write ["panel_density"]. *)
Definition story_count_rivals : list string :=
  ["high-rise"; "mid-rise"; "low-rise"].

Definition panel_density_rivals : list string :=
  ["high-rise"; "mid-rise"; "low-rise"; "louvres"; "shadowing"; "framing views";
   "transparent"; "opaque"; "dense"; "sparse"; "porous"].

(** Generators that produce nothing, to run [interpret_brief] on examples. *)
Definition no_operations : interp -> pyval -> M (list pyval) := fun _ _ => ret [].
Definition no_code : interp -> list pyval -> M string := fun _ _ => ret EmptyString.

(* ===================================================================== *)
(** ** The operation generators of the other design domains               *)
(* ===================================================================== *)

Module Domains.

(** [v != s] for a string literal [s]. *)
Definition py_ne_str (v : pyval) (s : string) : bool := negb (py_eq_str v s).

Definition _generate_floor_plan_operations (self : interp) (params : pyval)
  : M (list pyval) :=
  area <- getitem params "floor_area" ;;
  p1 <- new_dict [("area", area); ("proportions", PyStr "rectangular")] ;;
  op1 <- new_operation "create_floor_boundary" p1 ;;
  program_type <- getitem params "program_type" ;;
  room_count <- getitem params "room_count" ;;
  open_plan <- getitem params "open_plan" ;;
  p2 <- new_dict [("program_type", program_type); ("room_count", room_count);
                  ("open_plan", open_plan)] ;;
  op2 <- new_operation "generate_program_zones" p2 ;;
  corridor_width <- getitem params "corridor_width" ;;
  room_division <- getitem params "room_division" ;;
  p3 <- new_dict [("corridor_width", corridor_width);
                  ("room_division", room_division)] ;;
  op3 <- new_operation "create_circulation" p3 ;;
  open_plan2 <- getitem params "open_plan" ;;
  is_open <- py_truth open_plan2 ;;
  partitions <-
    (if is_open : bool then ret []
     else
       room_division2 <- getitem params "room_division" ;;
       room_count2 <- getitem params "room_count" ;;
       p4 <- new_dict [("room_division", room_division2);
                       ("room_count", room_count2)] ;;
       op4 <- new_operation "create_partitions" p4 ;;
       ret [op4]) ;;
  program_type2 <- getitem params "program_type" ;;
  p5 <- new_dict [("program_type", program_type2); ("density", PyFloat 0.7%Q)] ;;
  op5 <- new_operation "place_furniture" p5 ;;
  ret ([op1; op2; op3] ++ partitions ++ [op5])%list.

Section Urban.

(** The product [a * b] of two parameter values is the host's arithmetic
    (floating point for the values a brief would carry); it is taken as it
    comes. *)
Variable py_mul : pyval -> pyval -> M pyval.

Definition _generate_urban_operations (self : interp) (params : pyval)
  : M (list pyval) :=
  block_size <- getitem params "block_size" ;;
  block_size2 <- getitem params "block_size" ;;
  square <- py_mul block_size block_size2 ;;
  site_area <- py_mul square (PyInt 4) ;;
  p1 <- new_dict [("site_area", site_area);
                  ("site_proportions", PyStr "rectangular")] ;;
  op1 <- new_operation "create_site_boundary" p1 ;;
  block_size3 <- getitem params "block_size" ;;
  street_width <- getitem params "street_width" ;;
  p2 <- new_dict [("block_size", block_size3); ("street_width", street_width);
                  ("network_type", PyStr "grid")] ;;
  op2 <- new_operation "generate_street_network" p2 ;;
  coverage <- getitem params "building_coverage" ;;
  density <- getitem params "density" ;;
  p3 <- new_dict [("coverage", coverage); ("density", density)] ;;
  op3 <- new_operation "create_building_footprints" p3 ;;
  height_avg <- getitem params "building_height_avg" ;;
  mixed_use <- getitem params "mixed_use" ;;
  p4 <- new_dict [("height_avg", height_avg); ("height_variation", PyFloat 0.3%Q);
                  ("mixed_use", mixed_use)] ;;
  op4 <- new_operation "generate_building_massing" p4 ;;
  p5 <- new_dict [("ratio", PyFloat 0.2%Q); ("distribution", PyStr "central")] ;;
  op5 <- new_operation "add_public_spaces" p5 ;;
  ret [op1; op2; op3; op4; op5].

End Urban.

Definition _generate_landscape_operations (self : interp) (params : pyval)
  : M (list pyval) :=
  complexity <- getitem params "terrain_complexity" ;;
  height_variation <- getitem params "topography_variation" ;;
  p1 <- new_dict [("area", PyInt 10000); ("complexity", complexity);
                  ("height_variation", height_variation)] ;;
  op1 <- new_operation "create_terrain" p1 ;;
  path_complexity <- getitem params "path_complexity" ;;
  p2 <- new_dict [("complexity", path_complexity); ("path_width", PyFloat 2.0%Q)] ;;
  op2 <- new_operation "generate_path_network" p2 ;;
  vegetation <- getitem params "vegetation_density" ;;
  p3 <- new_dict [("density", vegetation);
                  ("types", PyList [PyStr "trees"; PyStr "shrubs";
                                    PyStr "ground_cover"])] ;;
  op3 <- new_operation "add_vegetation" p3 ;;
  water_features <- getitem params "water_features" ;;
  has_water <- py_truth water_features ;;
  water <-
    (if has_water : bool then
       p4 <- new_dict [("type", PyStr "pond"); ("area_ratio", PyFloat 0.15%Q)] ;;
       op4 <- new_operation "add_water_features" p4 ;;
       ret [op4]
     else ret []) ;;
  p5 <- new_dict [("density", PyFloat 0.5%Q)] ;;
  op5 <- new_operation "add_site_furniture" p5 ;;
  ret ([op1; op2; op3] ++ water ++ [op5])%list.

Definition _generate_structure_operations (self : interp) (params : pyval)
  : M (list pyval) :=
  grid <- getitem params "structural_grid" ;;
  system <- getitem params "structural_system" ;;
  p1 <- new_dict [("grid_size", grid); ("system_type", system)] ;;
  op1 <- new_operation "create_structural_grid" p1 ;;
  dimensions <- getitem params "column_dimensions" ;;
  material <- getitem params "structural_material" ;;
  p2 <- new_dict [("dimensions", dimensions); ("material", material)] ;;
  op2 <- new_operation "generate_columns" p2 ;;
  depth <- getitem params "beam_depth" ;;
  material2 <- getitem params "structural_material" ;;
  p3 <- new_dict [("depth", depth); ("material", material2)] ;;
  op3 <- new_operation "generate_beams" p3 ;;
  material3 <- getitem params "structural_material" ;;
  p4 <- new_dict [("thickness", PyFloat 0.2%Q); ("material", material3)] ;;
  op4 <- new_operation "generate_floor_slabs" p4 ;;
  material4 <- getitem params "structural_material" ;;
  p5 <- new_dict [("type", PyStr "bracing"); ("material", material4)] ;;
  op5 <- new_operation "create_lateral_system" p5 ;;
  ret [op1; op2; op3; op4; op5].

Definition _generate_parametric_form_operations (self : interp) (params : pyval)
  : M (list pyval) :=
  p1 <- new_dict [("type", PyStr "box");
                  ("dimensions", PyList [PyInt 10; PyInt 10; PyInt 10])] ;;
  op1 <- new_operation "create_base_geometry" p1 ;;
  level <- getitem params "subdivision_level" ;;
  p2 <- new_dict [("level", level); ("method", PyStr "catmull-clark")] ;;
  op2 <- new_operation "apply_subdivision" p2 ;;
  count <- getitem params "attractor_points" ;;
  p3 <- new_dict [("count", count); ("influence", PyFloat 0.7%Q)] ;;
  op3 <- new_operation "create_attractors" p3 ;;
  iterations <- getitem params "iterations" ;;
  strength <- getitem params "complexity" ;;
  p4 <- new_dict [("iterations", iterations); ("strength", strength)] ;;
  op4 <- new_operation "apply_deformation" p4 ;;
  symmetry <- getitem params "symmetry" ;;
  mirrored <-
    (if py_ne_str symmetry "none" then
       symmetry2 <- getitem params "symmetry" ;;
       p5 <- new_dict [("type", symmetry2); ("preserve_original", PyBool true)] ;;
       op5 <- new_operation "apply_symmetry" p5 ;;
       ret [op5]
     else ret []) ;;
  ret ([op1; op2; op3; op4] ++ mirrored)%list.

(** [_generate_operations] with the generators of the class. *)
Definition generate_operations (py_mul : pyval -> pyval -> M pyval)
  : interp -> pyval -> M (list pyval) :=
  _generate_operations _generate_floor_plan_operations
                       (_generate_urban_operations py_mul)
                       _generate_landscape_operations
                       _generate_structure_operations
                       _generate_parametric_form_operations.

End Domains.

(** Reading an operation list back from the heap: an entry of the dict
    behind an operation, and the names of a list of operations. *)
Definition operation_entry (h : list dict) (op : pyval) (key : string) : option pyval :=
  match op with
  | PyRef l =>
      match nth_error h l with
      | Some d => dict_get d key
      | None => None
      end
  | _ => None
  end.

Definition operation_names (h : list dict) (ops : list pyval) : list (option pyval) :=
  map (fun op => operation_entry h op "operation") ops.

(** The values a parameter can take: its default and what the rules write. *)
Definition possible_values (key : string) : list pyval :=
  (match dict_get default_params_literal key with Some v => [v] | None => [] end
   ++ flat_map (fun e => match dict_get (snd e) key with Some v => [v] | None => [] end)
               keyword_mappings_literal)%list.

(** A finer check than [always_found]: a match of [w] itself may run into
    the next occurrence of [w], since [w] is then in the result already. *)
Definition found_wherever (alts : list string) (w : string) : bool :=
  negb (String.eqb w EmptyString)
  && forallb (fun a => String.eqb a w || no_overlap a w) alts
  && taken_first alts w.

(** The alternatives that a match of another alternative of their group can
    run into, or that a longer alternative contains. *)
Definition overrun_keywords : list string :=
  ["responsive"; "static"; "sunshade"; "temperature"; "views"; "metal";
   "aluminum"; "sparse"].

(** The truth value of a value that is not a reference. *)
Definition plain_truth (v : pyval) : option bool :=
  match v with
  | PyNone => Some false
  | PyBool b => Some b
  | PyInt z => Some (negb (Z.eqb z 0))
  | PyFloat q => Some (negb (Z.eqb (Qnum q) 0))
  | PyStr s | PyBytes s => Some (negb (String.eqb s EmptyString))
  | PyList l => Some (list_truth l)
  | PyRef _ => None
  end.

(** The keys [_generate_facade_operations] reads, by the truth of
    [responsive_panels], and the operations it then lists. *)
Definition facade_keys (responsive : bool) : list string :=
  (["story_count"; "floor_height"; "grid_size"; "facade_offset"; "panel_type";
    "panel_density"; "material"; "structural_system"; "responsive_panels"]
   ++ if responsive then ["sun_priority"; "view_priority"; "panel_rotation_limit"]
      else [])%list.

Definition facade_names (responsive : bool) : list string :=
  (["create_building_envelope"; "create_facade_system"]
   ++ (if responsive
       then ["analyze_sun_angles"; "analyze_view_corridors"; "generate_panel_rotations"]
       else [])
   ++ ["generate_facade_geometry"])%list.

Definition names (l : list string) : list (option pyval) :=
  map (fun n => Some (PyStr n)) l.

(** The words of the dict [_extract_keywords] returned, group after group. *)
Definition extracted_words (out : result pyval * state) : list pyval :=
  match parameter_set out with
  | Some kw => flat_map (fun e => match snd e with PyList ws => ws | _ => [] end) kw
  | None => []
  end.

(** The first of [keys] that the dict [d] does not have. *)
Definition first_missing (d : dict) (keys : list string) : option string :=
  find (fun k => negb (dict_mem d k)) keys.

(** An entry of the ["params"] dict of an operation. *)
Definition operation_param (h : list dict) (op : pyval) (key : string) : option pyval :=
  match operation_entry h op "params" with
  | Some params => operation_entry h params key
  | None => None
  end.

(** The design domains [_generate_operations] has a generator for. *)
Definition known_domains : list string :=
  ["facade"; "floor_plan"; "urban"; "landscape"; "structure"; "parametric_form"].

Definition floor_plan_keys : list string :=
  ["floor_area"; "program_type"; "room_count"; "open_plan"; "corridor_width";
   "room_division"].

Definition floor_plan_names (open_plan : bool) : list string :=
  (["create_floor_boundary"; "generate_program_zones"; "create_circulation"]
   ++ (if open_plan then [] else ["create_partitions"])
   ++ ["place_furniture"])%list.

Definition landscape_keys : list string :=
  ["terrain_complexity"; "topography_variation"; "path_complexity";
   "vegetation_density"; "water_features"].

Definition landscape_names (water : bool) : list string :=
  (["create_terrain"; "generate_path_network"; "add_vegetation"]
   ++ (if water then ["add_water_features"] else [])
   ++ ["add_site_furniture"])%list.

Definition parametric_form_keys : list string :=
  ["subdivision_level"; "attractor_points"; "iterations"; "complexity"; "symmetry"].

Definition parametric_form_names (mirrored : bool) : list string :=
  (["create_base_geometry"; "apply_subdivision"; "create_attractors";
    "apply_deformation"]
   ++ if mirrored then ["apply_symmetry"] else [])%list.

(* ===================================================================== *)
(** ** The Rhino code generator                                           *)
(* ===================================================================== *)

Module CodeGen.

(** [s.replace(old, new)] for one-character [old] and [new]. *)
Fixpoint replace_char (s : string) (old new : ascii) : string :=
  match s with
  | EmptyString => EmptyString
  | String c r =>
      String (if Ascii.eqb c old then new else c) (replace_char r old new)
  end.

(** [o.replace(" ", "_")] *)
Definition call_replace_spaces (o : pyval) : M string :=
  match o with
  | PyStr s => ret (replace_char s " " "_")
  | PyBytes _ => raise (TypeError "a bytes-like object is required, not 'str'")
  | _ => raise (no_attribute "replace" o)
  end.

Section Templates.

(** The text of the header template before and behind its one placeholder,
    the closing text, and the six generators of domain code are template
    text for the CAD host; they are taken as they come. *)
Variable header_before header_after ending_code : string.
Variable _generate_facade_rhino_code : interp -> list pyval -> M string.
Variable _generate_floor_plan_rhino_code : interp -> list pyval -> M string.
Variable _generate_urban_rhino_code : interp -> list pyval -> M string.
Variable _generate_landscape_rhino_code : interp -> list pyval -> M string.
Variable _generate_structure_rhino_code : interp -> list pyval -> M string.
Variable _generate_parametric_form_rhino_code : interp -> list pyval -> M string.

Definition _generate_rhino_code (self : interp) (operations : list pyval) : M string :=
  match operations with
  | [] => ret "# No operations to generate code from"
  | first :: _ =>
      first_params <- getitem first "params" ;;
      design_domain <- dict_getd first_params "design_domain" (PyStr "facade") ;;
      layer <- call_replace_spaces design_domain ;;
      let header_code := header_before ++ layer ++ header_after in
      domain_code <-
        (if py_eq_str design_domain "facade" then
           _generate_facade_rhino_code self operations
         else if py_eq_str design_domain "floor_plan"
                 || py_eq_str design_domain "floor layout" then
           _generate_floor_plan_rhino_code self operations
         else if py_eq_str design_domain "urban"
                 || py_eq_str design_domain "urban design" then
           _generate_urban_rhino_code self operations
         else if py_eq_str design_domain "landscape"
                 || py_eq_str design_domain "landscape design" then
           _generate_landscape_rhino_code self operations
         else if py_eq_str design_domain "structure"
                 || py_eq_str design_domain "structural" then
           _generate_structure_rhino_code self operations
         else if py_eq_str design_domain "parametric_form"
                 || py_eq_str design_domain "form" then
           _generate_parametric_form_rhino_code self operations
         else
           _generate_facade_rhino_code self operations) ;;
      ret (header_code ++ domain_code ++ ending_code)
  end.

End Templates.

End CodeGen.

(** The second names [_generate_rhino_code] accepts for five of the domains. *)
Definition domain_aliases : list string :=
  ["floor layout"; "urban design"; "landscape design"; "structural"; "form"].

(** A statement that only reads the state, and a statement that leaves the
    log, the number of objects and every object below [n] as they were. *)
Definition reads_only {A} (m : M A) : Prop := forall st, snd (m st) = st.

Definition same_below (n : nat) (st st' : state) : Prop :=
  log st' = log st
  /\ length (heap st') = length (heap st)
  /\ forall l, l < n -> nth_error (heap st') l = nth_error (heap st) l.

(** A code generator that fails, and the state of an interpreter whose
    default table was given a ["color_scheme"] after construction. *)
Definition failing_code : interp -> list pyval -> M string :=
  fun _ _ => raise (RuntimeError "template failed").

Definition patched_state : state :=
  mkState (heap_set (init_objects 0) 0
                    (default_params_literal ++ [("color_scheme", PyStr "warm")])%list)
          [].

(* ===================================================================== *)
(** ** Strings                                                            *)
(* ===================================================================== *)

Module StrFacts.
Import Str.

Lemma append_nil_r (s : string) : s ++ "" = s.
Proof. induction s; simpl; congruence. Qed.

Lemma append_assoc (a b c : string) : (a ++ b) ++ c = a ++ b ++ c.
Proof. induction a; simpl; congruence. Qed.

Lemma length_append (a b : string) :
  String.length (a ++ b) = String.length a + String.length b.
Proof. induction a; simpl; congruence. Qed.

Lemma startswith_app (w rest : string) : startswith w (w ++ rest) = true.
Proof.
  induction w as [|c w IH]; simpl; auto.
  now rewrite Ascii.eqb_refl.
Qed.

Lemma startswith_inv (w s : string) :
  startswith w s = true -> exists rest, s = w ++ rest.
Proof.
  revert s; induction w as [|c w IH]; intros s H.
  - now exists s.
  - destruct s as [|b s]; simpl in H; try discriminate.
    apply andb_true_iff in H as [Hc Hw].
    apply Ascii.eqb_eq in Hc; subst b.
    destruct (IH _ Hw) as [rest ->].
    now exists rest.
Qed.

Lemma startswith_contains (w s : string) : startswith w s = true -> contains w s.
Proof.
  intros H; destruct (startswith_inv _ _ H) as [rest ->].
  now exists "", rest.
Qed.

Lemma contains_cons (w s : string) (c : ascii) :
  contains w s -> contains w (String c s).
Proof.
  intros (pre & post & ->).
  now exists (String c pre), post.
Qed.

Lemma containsb_spec (w s : string) : containsb w s = true <-> contains w s.
Proof.
  split.
  - induction s as [|c s IH]; simpl; intros H.
    + rewrite orb_false_r in H. now apply startswith_contains.
    + apply orb_true_iff in H as [H|H].
      * now apply startswith_contains.
      * now apply contains_cons, IH.
  - intros (pre & post & ->).
    induction pre as [|c pre IH].
    + simpl. generalize (startswith_app w post).
      destruct (w ++ post); simpl; intros ->; reflexivity.
    + simpl. rewrite IH. apply orb_true_r.
Qed.

Lemma lower_app (a b : string) : lower (a ++ b) = lower a ++ lower b.
Proof. induction a; simpl; congruence. Qed.

(** A keyword written in lower case survives lower-casing of the text. *)
Lemma contains_lower (w s : string) :
  lower w = w -> contains w s -> contains w (lower s).
Proof.
  intros Hw (pre & post & ->).
  exists (lower pre), (lower post).
  now rewrite !lower_app, Hw.
Qed.

(** Two strings that start the same text: one starts the other. *)
Lemma app_eq_comparable (a w r p : string) :
  a ++ r = w ++ p -> startswith a w || startswith w a = true.
Proof.
  revert w; induction a as [|c a IH]; intros w H.
  - reflexivity.
  - destruct w as [|d w]; simpl.
    + reflexivity.
    + simpl in H. injection H as -> H.
      rewrite Ascii.eqb_refl. simpl. now apply IH.
Qed.

End StrFacts.

(* ===================================================================== *)
(** ** The scan of [re.findall]                                           *)
(* ===================================================================== *)

Module ReFacts.
Import Str StrFacts Re.

Lemma first_match_some (alts : list string) (text w : string) :
  first_match alts text = Some w -> In w alts /\ startswith w text = true.
Proof. unfold first_match. intros H. now apply find_some in H. Qed.

(** Every match is one of the alternatives and occurs in the text. *)
Lemma scan_sound (alts : list string) (text : string) :
  forall skip w, In w (scan alts skip text) -> In w alts /\ contains w text.
Proof.
  induction text as [|c rest IH]; intros skip w H.
  - contradiction.
  - cbn [scan] in H. destruct skip as [|k].
    + destruct (first_match alts (String c rest)) as [a|] eqn:E.
      * destruct H as [<-|H].
        -- apply first_match_some in E as [Ha Hs].
           split; [exact Ha | now apply startswith_contains].
        -- apply IH in H as [Ha Hc]. split; [exact Ha | now apply contains_cons].
      * apply IH in H as [Ha Hc]. split; [exact Ha | now apply contains_cons].
    + apply IH in H as [Ha Hc]. split; [exact Ha | now apply contains_cons].
Qed.

Lemma drop_app (pre a r t : string) :
  a ++ r = pre ++ t -> String.length pre <= String.length a ->
  drop (String.length pre) a ++ r = t.
Proof.
  revert a; induction pre as [|c pre IH]; intros a H Hlen.
  - exact H.
  - destruct a as [|d a]; simpl in Hlen; [lia|].
    simpl in H. injection H as _ H.
    simpl. apply IH; [exact H | lia].
Qed.

Lemma taken_first_match (alts : list string) (w post : string) :
  taken_first alts w = true -> first_match alts (w ++ post) = Some w.
Proof.
  unfold first_match.
  induction alts as [|a r IH]; simpl; intros H; [discriminate|].
  destruct (String.eqb a w) eqn:E.
  - apply String.eqb_eq in E; subst a. now rewrite startswith_app.
  - apply andb_true_iff in H as [Hc Hr].
    destruct (startswith a (w ++ post)) eqn:Hs.
    + apply startswith_inv in Hs as [rest Hs].
      symmetry in Hs. apply app_eq_comparable in Hs.
      unfold comparable in Hc. rewrite Hs in Hc. discriminate.
    + now apply IH.
Qed.

(** A match that starts before an occurrence of [w] ends before it. *)
Lemma match_stops_short (a w rest pre post : string) :
  no_overlap a w = true ->
  a ++ rest = pre ++ w ++ post ->
  pre <> EmptyString ->
  String.length a <= String.length pre.
Proof.
  intros Hno Heq Hpre.
  destruct (le_lt_dec (String.length a) (String.length pre)) as [Hle|Hlt]; [exact Hle|].
  exfalso.
  assert (Hd : drop (String.length pre) a ++ rest = w ++ post)
    by (apply drop_app; [exact Heq | lia]).
  apply app_eq_comparable in Hd.
  unfold no_overlap in Hno. rewrite forallb_forall in Hno.
  specialize (Hno (String.length pre)).
  unfold comparable in Hno. rewrite Hd in Hno.
  assert (Hin : In (String.length pre) (seq 1 (String.length a - 1))).
  { apply in_seq. destruct pre; [congruence | simpl in *; lia]. }
  specialize (Hno Hin). discriminate.
Qed.

(** A keyword that passes [always_found] is matched in every text that
    contains it. *)
Lemma scan_complete (alts : list string) (w : string) :
  always_found alts w = true ->
  forall pre post skip, skip <= String.length pre ->
    In w (scan alts skip (pre ++ w ++ post)).
Proof.
  unfold always_found. intros H.
  apply andb_true_iff in H as [H Hfirst].
  apply andb_true_iff in H as [Hne Hover].
  rewrite forallb_forall in Hover.
  induction pre as [|c pre IH]; intros post skip Hskip.
  - simpl in Hskip. assert (skip = 0) by lia. subst skip.
    destruct w as [|d w']; [discriminate|].
    change ((""%string ++ String d w' ++ post)) with (String d (w' ++ post)).
    cbn [scan].
    change (String d (w' ++ post)) with (String d w' ++ post).
    rewrite (taken_first_match _ _ _ Hfirst). now left.
  - change (String c pre ++ w ++ post) with (String c (pre ++ w ++ post)).
    cbn [scan]. destruct skip as [|k].
    + destruct (first_match alts (String c (pre ++ w ++ post))) as [a|] eqn:E.
      * right. apply IH.
        apply first_match_some in E as [Ha Hs].
        apply startswith_inv in Hs as [rest Hs].
        assert (Hl : String.length a <= String.length (String c pre)).
        { apply (match_stops_short a w rest (String c pre) post).
          - now apply Hover.
          - now rewrite <- Hs.
          - discriminate. }
        simpl in Hl. lia.
      * apply IH. lia.
    + apply IH. simpl in Hskip. lia.
Qed.

Lemma scan_finds (alts : list string) (w text : string) :
  always_found alts w = true -> contains w text -> In w (scan alts 0 text).
Proof.
  intros H (pre & post & ->). apply scan_complete; [exact H | lia].
Qed.

End ReFacts.

(* ===================================================================== *)
(** ** Dictionaries                                                       *)
(* ===================================================================== *)

Module DictFacts.

Lemma dict_get_set (d : dict) (k k' : string) (v : pyval) :
  dict_get (dict_set d k v) k' = if String.eqb k k' then Some v else dict_get d k'.
Proof.
  induction d as [|[a b] r IH]; simpl.
  - reflexivity.
  - destruct (String.eqb a k) eqn:E; simpl.
    + apply String.eqb_eq in E; subst a.
      destruct (String.eqb k k'); reflexivity.
    + rewrite IH. destruct (String.eqb a k') eqn:E'; [|reflexivity].
      apply String.eqb_eq in E'; subst a. now rewrite String.eqb_sym, E.
Qed.

Lemma dict_mem_keys (d : dict) (k : string) :
  dict_mem d k = true <-> In k (dict_keys d).
Proof.
  unfold dict_mem. induction d as [|[a b] r IH]; simpl.
  - split; [discriminate | contradiction].
  - destruct (String.eqb a k) eqn:E.
    + apply String.eqb_eq in E. split; auto.
    + apply String.eqb_neq in E. rewrite IH. split; [auto | intros [?|?]; [contradiction | auto]].
Qed.

Lemma dict_get_none (d : dict) (k : string) :
  ~ In k (dict_keys d) -> dict_get d k = None.
Proof.
  intros H. destruct (dict_get d k) eqn:E; [|reflexivity].
  exfalso. apply H, dict_mem_keys. unfold dict_mem. now rewrite E.
Qed.

Lemma dict_keys_set (d : dict) (k : string) (v : pyval) :
  dict_keys (dict_set d k v)
  = if dict_mem d k then dict_keys d else (dict_keys d ++ [k])%list.
Proof.
  unfold dict_mem, dict_keys. induction d as [|[a b] r IH]; simpl.
  - reflexivity.
  - destruct (String.eqb a k) eqn:E; simpl; [reflexivity|].
    rewrite IH. destruct (dict_get r k); reflexivity.
Qed.

Lemma nodupb_NoDup (l : list string) : nodupb l = true -> NoDup l.
Proof.
  induction l as [|x r IH]; simpl; intros H; constructor.
  - apply andb_true_iff in H as [H _]. intros Hin.
    apply negb_true_iff in H.
    assert (existsb (String.eqb x) r = true)
      by (apply existsb_exists; exists x; split; [exact Hin | apply String.eqb_refl]).
    congruence.
  - apply andb_true_iff in H as [_ H]. now apply IH.
Qed.

(** A rule with distinct keys overwrites exactly its own keys. *)
Lemma dict_get_apply_rule (rule : dict) :
  NoDup (dict_keys rule) ->
  forall (d : dict) (k : string),
    dict_get (apply_rule d rule) k
    = match dict_get rule k with Some v => Some v | None => dict_get d k end.
Proof.
  unfold apply_rule.
  induction rule as [|[a b] r IH]; intros Hnd d k; simpl.
  - reflexivity.
  - inversion Hnd as [|? ? Hnotin Hnd']; subst.
    rewrite (IH Hnd'). simpl. rewrite dict_get_set.
    destruct (String.eqb a k) eqn:E.
    + apply String.eqb_eq in E; subst a.
      now rewrite (dict_get_none r k Hnotin).
    + reflexivity.
Qed.

End DictFacts.

(* ===================================================================== *)
(** ** The resolver as a function                                         *)
(* ===================================================================== *)

Module ResolveFacts.
Import Str StrFacts Re ReFacts DictFacts.

Lemma rule_of_in (w : string) (rule : dict) :
  rule_of w = Some rule -> In (w, rule) keyword_mappings_literal.
Proof.
  unfold rule_of, rule_in.
  destruct (find (fun e => String.eqb (fst e) w) keyword_mappings_literal)
    as [[k r]|] eqn:E; [|discriminate].
  intros [= <-]. apply find_some in E as [Hin Hk].
  apply String.eqb_eq in Hk. simpl in Hk. now subst k.
Qed.

Lemma rule_of_keyword (w : string) (rule : dict) :
  rule_of w = Some rule -> In w rule_keywords.
Proof.
  intros H. apply rule_of_in in H.
  unfold rule_keywords. now apply (in_map fst) in H.
Qed.

Lemma rules_distinct_keys (w : string) (rule : dict) :
  rule_of w = Some rule -> NoDup (dict_keys rule).
Proof.
  intros H. apply rule_of_in in H.
  assert (Hall : forallb (fun e => nodupb (dict_keys (snd e))) keyword_mappings_literal = true)
    by (vm_compute; reflexivity).
  rewrite forallb_forall in Hall.
  apply nodupb_NoDup. exact (Hall _ H).
Qed.

Lemma dict_get_apply_word (d : dict) (w k : string) :
  dict_get (apply_word d w) k
  = match writes w k with Some v => Some v | None => dict_get d k end.
Proof.
  unfold apply_word, writes.
  destruct (rule_of w) as [rule|] eqn:E; [|reflexivity].
  apply dict_get_apply_rule. now apply rules_distinct_keys in E.
Qed.

(** Last write wins: a key holds what the last visited keyword with a rule
    for it wrote, and otherwise what it held before. *)
Lemma dict_get_apply_words (words : list string) :
  forall (d : dict) (k : string),
    dict_get (apply_words d words) k
    = match last_writer words k with Some v => Some v | None => dict_get d k end.
Proof.
  unfold apply_words.
  induction words as [|w later IH]; intros d k; simpl.
  - reflexivity.
  - rewrite IH, dict_get_apply_word.
    destruct (last_writer later k); reflexivity.
Qed.

Lemma apply_words_app (d : dict) (a b : list string) :
  apply_words d (a ++ b) = apply_words (apply_words d a) b.
Proof. unfold apply_words. apply fold_left_app. Qed.

(** Keywords without a rule change nothing. *)
Lemma apply_words_no_rule (words : list string) (d : dict) :
  (forall w, In w words -> rule_of w = None) -> apply_words d words = d.
Proof.
  unfold apply_words.
  revert d; induction words as [|w later IH]; intros d H; simpl.
  - reflexivity.
  - unfold apply_word at 2. rewrite (H w (or_introl eq_refl)).
    apply IH. intros w' Hw'. apply H. now right.
Qed.

Lemma last_writer_none (words : list string) (k : string) :
  (forall w, In w words -> writes w k = None) -> last_writer words k = None.
Proof.
  induction words as [|w later IH]; intros H; simpl.
  - reflexivity.
  - rewrite IH by (intros w' Hw'; apply H; now right).
    apply H. now left.
Qed.

Lemma last_writer_some (words : list string) (k : string) (v : pyval) :
  last_writer words k = Some v -> exists w, In w words /\ writes w k = Some v.
Proof.
  induction words as [|w later IH]; simpl; intros H; [discriminate|].
  destruct (last_writer later k) as [v'|].
  - destruct (IH H) as [w' [Hin Hw']]. exists w'. split; [now right | exact Hw'].
  - exists w. split; [now left | exact H].
Qed.

Lemma last_writer_none_inv (words : list string) (k : string) :
  last_writer words k = None -> forall w, In w words -> writes w k = None.
Proof.
  induction words as [|w later IH]; simpl; intros H w' Hin; [contradiction|].
  destruct (last_writer later k) as [v'|]; [discriminate|].
  destruct Hin as [<-|Hin]; [exact H | now apply IH].
Qed.

(** If some visited keyword writes [v] to [k] and no visited keyword writes
    anything else to [k], the last writer wrote [v]. *)
Lemma last_writer_agree (words : list string) (k : string) (v : pyval) :
  (exists w, In w words /\ writes w k = Some v) ->
  (forall w, In w words -> writes w k = None \/ writes w k = Some v) ->
  last_writer words k = Some v.
Proof.
  intros [w0 [Hin Hw0]] Hall.
  destruct (last_writer words k) as [v'|] eqn:E.
  - apply last_writer_some in E as [w [Hw Hv']].
    destruct (Hall w Hw) as [Hn|Hs]; congruence.
  - rewrite (last_writer_none_inv _ _ E w0 Hin) in Hw0. discriminate.
Qed.

(** *** The visited keywords *)

Lemma matched_words_in (text w : string) :
  In w (matched_words text) <->
  exists g, In g pattern_groups /\ In w (group_matches text g).
Proof. unfold matched_words. apply in_flat_map. Qed.

Lemma matched_words_sound (text w : string) :
  In w (matched_words text) -> In w all_alternatives /\ contains w text.
Proof.
  intros H. apply matched_words_in in H as (g & Hg & Hw).
  unfold group_matches in Hw. apply scan_sound in Hw as [Ha Hc].
  split; [|exact Hc].
  unfold all_alternatives. apply in_flat_map. now exists g.
Qed.

(** Every occurrence of "tower" is matched: no alternative of its group can
    run into it, and none before it in the group starts like it. *)
Lemma tower_matched (text : string) :
  contains "tower" text <-> In "tower" (matched_words text).
Proof.
  split.
  - intros H. apply matched_words_in.
    exists ("building_type", ["high-rise"; "mid-rise"; "low-rise"; "tower"; "building"]).
    split; [now left|].
    unfold group_matches. apply scan_finds; [vm_compute; reflexivity | exact H].
  - intros H. now apply matched_words_sound in H.
Qed.

(** Every keyword with a rule is an alternative of some pattern group. *)
Lemma rule_keywords_are_alternatives (k : string) :
  In k rule_keywords -> In k all_alternatives.
Proof.
  intros H. vm_compute in H. vm_compute.
  repeat (destruct H as [<-|H]; [tauto|]). contradiction.
Qed.

Lemma keyword_entries_words (text : string) :
  flat_map snd (keyword_entries text) = matched_words text.
Proof.
  unfold keyword_entries, matched_words.
  induction pattern_groups as [|g gs IH]; simpl.
  - reflexivity.
  - destruct (group_matches text g) eqn:E; simpl; now rewrite IH.
Qed.

Lemma dict_set_fresh (d : dict) (k : string) (v : pyval) :
  ~ In k (dict_keys d) -> dict_set d k v = (d ++ [(k, v)])%list.
Proof.
  unfold dict_keys. induction d as [|[a b] r IH]; simpl; intros H.
  - reflexivity.
  - destruct (String.eqb a k) eqn:E.
    + apply String.eqb_eq in E. exfalso. auto.
    + rewrite IH; auto.
Qed.

Lemma extract_fold (text : string) (groups : list (string * list string)) :
  NoDup (map fst groups) ->
  forall acc : dict,
    (forall g, In g groups -> ~ In (fst g) (dict_keys acc)) ->
    fold_left (extract_step text) groups acc
    = (acc ++ map entry_value
         (filter (fun e => match snd e with [] => false | _ :: _ => true end)
                 (map (fun g => (fst g, group_matches text g)) groups)))%list.
Proof.
  induction groups as [|g gs IH]; intros Hnd acc Hfresh; simpl.
  - now rewrite app_nil_r.
  - inversion Hnd as [|? ? Hnotin Hnd']; subst.
    unfold extract_step at 2.
    destruct (group_matches text g) as [|m ms] eqn:E; simpl.
    + apply IH; [exact Hnd' | intros g' Hg'; apply Hfresh; now right].
    + rewrite dict_set_fresh by (apply Hfresh; now left).
      rewrite IH; [now rewrite <- app_assoc | exact Hnd' |].
      intros g' Hg' Hin. unfold dict_keys in Hin.
      rewrite map_app in Hin. apply in_app_or in Hin as [Hin|Hin].
      * apply (Hfresh g'); [now right | exact Hin].
      * simpl in Hin. destruct Hin as [Heq|[]].
        apply Hnotin. rewrite Heq. now apply in_map.
Qed.

(** The dict of [_extract_keywords]: one entry per group with a match, in
    the order of the groups. *)
Lemma extract_dict_entries (text : string) :
  extract_dict text = map entry_value (keyword_entries text).
Proof.
  unfold extract_dict, keyword_entries.
  rewrite extract_fold; [reflexivity | | intros g _ []].
  apply nodupb_NoDup. vm_compute. reflexivity.
Qed.

(** *** The keys of a ParameterSet *)

Lemma rule_keys_known (w : string) (rule : dict) (k : string) :
  rule_of w = Some rule -> In k (dict_keys rule) ->
  In k default_keys \/ k = "form".
Proof.
  intros Hr Hk. apply rule_of_in in Hr.
  assert (Hall : forallb
                   (fun e => forallb
                               (fun k => existsb (String.eqb k) default_keys
                                         || String.eqb k "form")
                               (dict_keys (snd e)))
                   keyword_mappings_literal = true)
    by (vm_compute; reflexivity).
  rewrite forallb_forall in Hall. specialize (Hall _ Hr).
  rewrite forallb_forall in Hall. specialize (Hall _ Hk).
  apply orb_true_iff in Hall as [H|H].
  - left. apply existsb_exists in H as (x & Hx & Heq).
    apply String.eqb_eq in Heq. now subst x.
  - right. now apply String.eqb_eq in H.
Qed.

Lemma keys_ok_set (d : dict) (k : string) (v : pyval) :
  keys_ok d -> In k default_keys \/ k = "form" -> keys_ok (dict_set d k v).
Proof.
  unfold keys_ok. intros Hd Hk. rewrite dict_keys_set.
  destruct (dict_mem d k) eqn:E; [exact Hd|].
  assert (Hnot : ~ In k (dict_keys d))
    by (intros Hin; apply dict_mem_keys in Hin; congruence).
  destruct Hd as [Hd|Hd]; rewrite Hd in *.
  - destruct Hk as [Hk| ->]; [contradiction | now right].
  - exfalso. apply Hnot. apply in_or_app.
    destruct Hk as [Hk| ->]; [now left | right; now left].
Qed.

Lemma keys_ok_apply_rule (rule : dict) :
  forall d, keys_ok d ->
    (forall k, In k (dict_keys rule) -> In k default_keys \/ k = "form") ->
    keys_ok (apply_rule d rule).
Proof.
  unfold apply_rule.
  induction rule as [|[a b] r IH]; intros d Hd Hk; simpl.
  - exact Hd.
  - apply IH.
    + apply keys_ok_set; [exact Hd | apply Hk; now left].
    + intros k Hin. apply Hk. now right.
Qed.

Lemma keys_ok_apply_words (words : list string) :
  forall d, keys_ok d -> keys_ok (apply_words d words).
Proof.
  unfold apply_words.
  induction words as [|w later IH]; intros d Hd; simpl.
  - exact Hd.
  - apply IH. unfold apply_word.
    destruct (rule_of w) as [rule|] eqn:E; [|exact Hd].
    apply keys_ok_apply_rule; [exact Hd|].
    intros k. now apply rule_keys_known with (w := w).
Qed.

Lemma keys_ok_resolved (brief : string) : keys_ok (resolved brief).
Proof. apply keys_ok_apply_words. now left. Qed.

(** A key no rule mentions is never written. *)
Lemma never_written (k : string) :
  forallb (fun e => negb (dict_mem (snd e) k)) keyword_mappings_literal = true ->
  forall w, writes w k = None.
Proof.
  intros Hall w. unfold writes.
  destruct (rule_of w) as [rule|] eqn:E; [|reflexivity].
  apply rule_of_in in E. rewrite forallb_forall in Hall.
  specialize (Hall _ E). simpl in Hall. unfold dict_mem in Hall.
  destruct (dict_get rule k); [discriminate | reflexivity].
Qed.

(** Only the rule of "tower" writes ["form"]. *)
Lemma writes_form (w : string) (v : pyval) :
  writes w "form" = Some v -> w = "tower" /\ v = PyStr "tower".
Proof.
  unfold writes. destruct (rule_of w) as [rule|] eqn:E; [|discriminate].
  apply rule_of_in in E. intros H.
  assert (Hall : forallb
                   (fun e => negb (dict_mem (snd e) "form") || String.eqb (fst e) "tower")
                   keyword_mappings_literal = true)
    by (vm_compute; reflexivity).
  rewrite forallb_forall in Hall. specialize (Hall _ E). simpl in Hall.
  unfold dict_mem in Hall. rewrite H in Hall. simpl in Hall.
  apply String.eqb_eq in Hall. subst w.
  split; [reflexivity|].
  unfold keyword_mappings_literal in E. simpl in E.
  repeat (destruct E as [E|E]; [try discriminate E |]); try contradiction.
  injection E as <-. simpl in H. congruence.
Qed.

End ResolveFacts.

(* ===================================================================== *)
(** ** Running the interpreter                                            *)
(* ===================================================================== *)

Module RunFacts.
Import Str StrFacts Re ReFacts DictFacts ResolveFacts.

Lemma nth_error_last (h : list dict) (d : dict) :
  nth_error (h ++ [d]) (length h) = Some d.
Proof. rewrite nth_error_app2, Nat.sub_diag by lia. reflexivity. Qed.

Lemma nth_error_before (h e : list dict) (l : loc) (d : dict) :
  nth_error h l = Some d -> nth_error (h ++ e) l = Some d.
Proof.
  intros H. rewrite nth_error_app1; [exact H|].
  apply nth_error_Some. congruence.
Qed.

Lemma heap_set_last (h : list dict) (d d' : dict) :
  heap_set (h ++ [d]) (length h) d' = (h ++ [d'])%list.
Proof. induction h as [|x h IH]; simpl; congruence. Qed.

Lemma new_nested_spec (entries : list (string * dict)) :
  forall h lg,
    new_nested entries (mkState h lg)
    = (Ok (refs_from (length h) entries), mkState (h ++ map snd entries) lg).
Proof.
  induction entries as [|[k d] r IH]; intros h lg; simpl.
  - now rewrite app_nil_r.
  - unfold bind. simpl. rewrite IH.
    rewrite length_app, Nat.add_1_r, <- app_assoc. reflexivity.
Qed.

Lemma init_spec (h : list dict) (lg : list log_entry) :
  __init__ (mkState h lg)
  = (Ok (mkInterp (PyRef (length h)) (PyRef (length h + 33)) (PyRef (length h + 34))),
     mkState (h ++ init_objects (length h)) lg).
Proof.
  unfold __init__, bind.
  cbn [new_dict heap log].
  rewrite new_nested_spec.
  cbn [new_dict heap log ret].
  unfold ret. rewrite !length_app, length_map.
  change (length keyword_mappings_literal) with 32. cbn [length].
  replace (length h + 1 + 32) with (length h + 33) by lia.
  replace (length h + 33 + 1) with (length h + 34) by lia.
  rewrite Nat.add_1_r. unfold init_objects.
  rewrite <- !app_assoc. cbn [app]. reflexivity.
Qed.

Lemma refs_from_lookup (entries : list (string * dict)) :
  forall (pre post : list dict) (w : string),
    match dict_get (refs_from (length pre) entries) w with
    | Some v =>
        exists l r, v = PyRef l
                    /\ nth_error (pre ++ map snd entries ++ post) l = Some r
                    /\ rule_in entries w = Some r
    | None => rule_in entries w = None
    end.
Proof.
  unfold rule_in.
  induction entries as [|[k d] r IH]; intros pre post w; simpl.
  - reflexivity.
  - destruct (String.eqb k w) eqn:E.
    + exists (length pre), d. repeat split.
      rewrite nth_error_app2, Nat.sub_diag by lia. reflexivity.
    + specialize (IH (pre ++ [d])%list post w).
      rewrite length_app, Nat.add_1_r, <- app_assoc in IH. exact IH.
Qed.

Lemma init_tables (h extra : list dict) :
  tables_in
    (mkInterp (PyRef (length h)) (PyRef (length h + 33)) (PyRef (length h + 34)))
    (h ++ init_objects (length h) ++ extra).
Proof.
  exists (length h), (length h + 33), (length h + 34),
         (refs_from (S (length h)) keyword_mappings_literal).
  split; [reflexivity|].
  split. { rewrite nth_error_app2, Nat.sub_diag by lia. reflexivity. }
  split. { rewrite nth_error_app2 by lia.
           replace (length h + 33 - length h) with 33 by lia. reflexivity. }
  split. { rewrite nth_error_app2 by lia.
           replace (length h + 34 - length h) with 34 by lia. reflexivity. }
  intros w.
  pose proof (refs_from_lookup keyword_mappings_literal
                (h ++ [default_params_literal])
                ([refs_from (S (length h)) keyword_mappings_literal; patterns_literal]
                   ++ extra) w) as H.
  rewrite length_app, Nat.add_1_r in H.
  unfold init_objects.
  replace (h ++ (default_params_literal :: map snd keyword_mappings_literal
                 ++ [refs_from (S (length h)) keyword_mappings_literal; patterns_literal])
             ++ extra)%list
    with ((h ++ [default_params_literal]) ++ map snd keyword_mappings_literal
          ++ [refs_from (S (length h)) keyword_mappings_literal; patterns_literal]
          ++ extra)%list.
  - exact H.
  - rewrite <- !app_assoc. cbn [app]. rewrite <- ?app_assoc. cbn [app]. reflexivity.
Qed.

Lemma installed_tables (self : interp) (h : list dict) :
  installed self h -> tables_in self h.
Proof.
  intros ([h0 lg] & st & extra & Hinit & ->).
  rewrite init_spec in Hinit. injection Hinit as <- <-. cbn [heap].
  rewrite <- app_assoc. apply init_tables.
Qed.

Lemma installed_ext (self : interp) (h e : list dict) :
  installed self h -> installed self (h ++ e).
Proof.
  intros (st0 & st & extra & Hinit & ->).
  exists st0, st, (extra ++ e)%list. split; [exact Hinit | now rewrite app_assoc].
Qed.

Lemma tables_in_ext (self : interp) (h e : list dict) :
  tables_in self h -> tables_in self (h ++ e).
Proof.
  intros (ld & lk & lp & outer & Hself & Hd & Hk & Hp & Hrules).
  exists ld, lk, lp, outer.
  repeat split; auto using nth_error_before.
  intros w. specialize (Hrules w).
  destruct (dict_get outer w); [|exact Hrules].
  destruct Hrules as (l & r & Hv & Hl & Hr).
  exists l, r. auto using nth_error_before.
Qed.

(** *** The loops of [_derive_parameters] *)

Lemma run_rule_loop (entries : dict) :
  forall (h : list dict) (d : dict) (lg : list log_entry),
    for_each entries (fun '(key, value) => setitem (PyRef (length h)) key value)
             (mkState (h ++ [d]) lg)
    = (Ok tt, mkState (h ++ [apply_rule d entries]) lg).
Proof.
  induction entries as [|[k v] r IH]; intros h d lg; cbn [for_each].
  - reflexivity.
  - unfold bind at 1. unfold setitem at 1. unfold bind, deref. cbn [heap log].
    rewrite nth_error_last. cbn [heap log]. rewrite heap_set_last. apply IH.
Qed.

Section DeriveLoops.

Variable self : interp.
Variable h : list dict.
Hypothesis Htab : tables_in self h.

Let params : pyval := PyRef (length h).

Let word_body (word : pyval) : M unit :=
  known <- py_in word (keyword_mappings self) ;;
  if known : bool then
    rule <- getitem_v (keyword_mappings self) word ;;
    entries <- dict_items rule ;;
    for_each entries (fun '(key, value) => setitem params key value)
  else ret tt.

Lemma run_word_loop (ws : list string) :
  forall (d : dict) (lg : list log_entry),
    for_each (map PyStr ws) word_body (mkState (h ++ [d]) lg)
    = (Ok tt, mkState (h ++ [apply_words d ws]) lg).
Proof.
  destruct Htab as (ld & lk & lp & outer & Hself & Hd & Hk & Hp & Hrules).
  induction ws as [|w later IH]; intros d lg; cbn [map for_each].
  - reflexivity.
  - unfold bind at 1. unfold word_body at 1.
    rewrite Hself. cbn [keyword_mappings].
    unfold bind at 1. unfold py_in, bind, deref. cbn [heap log].
    rewrite (nth_error_before _ _ _ _ Hk). unfold ret at 1.
    specialize (Hrules w). unfold dict_mem.
    change (apply_words d (w :: later)) with (apply_words (apply_word d w) later).
    unfold apply_word.
    destruct (dict_get outer w) as [v|] eqn:E.
    + destruct Hrules as (l & r & -> & Hl & Hr). rewrite Hr.
      unfold getitem_v, getitem, bind, deref. cbn [heap log].
      rewrite (nth_error_before _ _ _ _ Hk), E. unfold ret at 1.
      unfold dict_items, deref. cbn [heap log].
      rewrite (nth_error_before _ _ _ _ Hl).
      unfold params. rewrite run_rule_loop. apply IH.
    + rewrite Hrules. unfold ret at 1. apply IH.
Qed.

Lemma run_category_loop (kws : list (string * list string)) :
  forall (d : dict) (lg : list log_entry),
    for_each (map entry_value kws)
             (fun '(category, words) =>
                ws <- iter_list words ;; for_each ws word_body)
             (mkState (h ++ [d]) lg)
    = (Ok tt, mkState (h ++ [apply_words d (flat_map snd kws)]) lg).
Proof.
  induction kws as [|[c ws] later IH]; intros d lg; cbn [map for_each flat_map].
  - reflexivity.
  - unfold bind at 1. unfold entry_value at 1. cbn [fst snd].
    unfold bind at 1. unfold iter_list, ret at 1.
    rewrite run_word_loop, apply_words_app. apply IH.
Qed.

End DeriveLoops.

Lemma derive_spec (self : interp) (h : list dict) (lg : list log_entry)
      (kwl : loc) (kws : list (string * list string)) :
  tables_in self h ->
  nth_error h kwl = Some (map entry_value kws) ->
  _derive_parameters self (PyRef kwl) (mkState h lg)
  = (Ok (PyRef (length h)),
     mkState (h ++ [apply_words default_params_literal (flat_map snd kws)]) lg).
Proof.
  intros Htab Hkw.
  pose proof Htab as (ld & lk & lp & outer & Hself & Hd & Hk & Hp & Hrules).
  unfold _derive_parameters.
  unfold bind at 1. rewrite Hself at 1. cbn [default_params].
  unfold dict_copy, bind, deref, new_dict. cbn [heap log].
  rewrite Hd. unfold dict_items, deref. cbn [heap log].
  rewrite (nth_error_before _ _ _ _ Hkw).
  rewrite (run_category_loop self h Htab). reflexivity.
Qed.

(** *** The loop of [_extract_keywords] *)

Lemma run_extract_loop (text : string) (items : dict)
      (groups : list (string * list string)) :
  Forall2 denotes items groups ->
  forall (h : list dict) (d : dict) (lg : list log_entry),
    for_each items
             (fun '(category, pattern) =>
                matches <- re_findall pattern (PyStr text) ;;
                if list_truth matches
                then setitem (PyRef (length h)) category (PyList matches)
                else ret tt)
             (mkState (h ++ [d]) lg)
    = (Ok tt, mkState (h ++ [fold_left (extract_step text) groups d]) lg).
Proof.
  induction 1 as [|item g items groups (p & -> & Hp) _ IH]; intros h d lg;
    cbn [for_each fold_left].
  - reflexivity.
  - unfold bind at 1. unfold bind at 1. unfold re_findall. rewrite Hp.
    unfold ret at 1. unfold extract_step at 2. unfold group_matches.
    destruct (scan (snd g) 0 text) as [|m ms]; cbn [map list_truth].
    + unfold ret at 1. apply IH.
    + unfold setitem, bind, deref. cbn [heap log].
      rewrite nth_error_last. cbn [heap log]. rewrite heap_set_last. apply IH.
Qed.

Lemma patterns_denote : Forall2 denotes patterns_literal pattern_groups.
Proof.
  unfold patterns_literal, pattern_groups.
  repeat (constructor; [eexists; split; [reflexivity | vm_compute; reflexivity]|]).
  constructor.
Qed.

Lemma extract_spec (self : interp) (h : list dict) (lg : list log_entry) (s : string) :
  tables_in self h ->
  _extract_keywords self (PyStr s) (mkState h lg)
  = (Ok (PyRef (length h)), mkState (h ++ [extract_dict (lower s)]) lg).
Proof.
  intros (ld & lk & lp & outer & Hself & Hd & Hk & Hp & Hrules).
  unfold _extract_keywords.
  unfold bind at 1. unfold new_dict at 1. cbn [heap log].
  unfold bind at 1. unfold call_lower, ret at 1.
  unfold bind at 1. rewrite Hself. cbn [patterns].
  unfold dict_items, deref. cbn [heap log].
  rewrite (nth_error_before _ _ _ _ Hp).
  unfold bind at 1.
  rewrite (run_extract_loop (lower s) _ _ patterns_denote). reflexivity.
Qed.

(** *** The resolver *)

Lemma resolve_spec (self : interp) (h : list dict) (lg : list log_entry) (s : string) :
  installed self h ->
  resolve self (PyStr s) (mkState h lg)
  = (Ok (PyRef (S (length h))),
     mkState (h ++ [extract_dict (lower s); resolved s]) lg).
Proof.
  intros Hi. apply installed_tables in Hi as Ht.
  unfold resolve, bind. rewrite (extract_spec _ _ _ _ Ht), extract_dict_entries.
  rewrite (derive_spec self _ lg (length h) (keyword_entries (lower s))).
  - rewrite keyword_entries_words, length_app, <- app_assoc, Nat.add_1_r.
    reflexivity.
  - now apply tables_in_ext.
  - apply nth_error_last.
Qed.

Lemma resolve_logged_spec (self : interp) (h : list dict) (lg : list log_entry)
      (s : string) :
  installed self h ->
  resolve_logged self (PyStr s) (mkState h lg)
  = (Ok (PyRef (length h), PyRef (S (length h))),
     mkState (h ++ [extract_dict (lower s); resolved s])
             (lg ++ [LogInfo "Processing design brief: {0}" (PyStr s);
                     LogDebug "Extracted keywords: {0}" (PyRef (length h));
                     LogDebug "Derived parameters: {0}" (PyRef (S (length h)))])).
Proof.
  intros Hi. apply installed_tables in Hi as Ht.
  unfold resolve_logged.
  unfold bind at 1. unfold logger at 1. cbn [heap log].
  unfold bind at 1. rewrite (extract_spec _ _ _ _ Ht), extract_dict_entries.
  unfold bind at 1. unfold logger at 1. cbn [heap log].
  unfold bind at 1.
  rewrite (derive_spec self _ _ (length h) (keyword_entries (lower s)));
    [| now apply tables_in_ext | apply nth_error_last].
  rewrite keyword_entries_words.
  unfold bind, logger, ret. cbn [heap log].
  rewrite length_app, Nat.add_1_r, <- !app_assoc. reflexivity.
Qed.

Lemma parameter_set_resolve (self : interp) (st : state) (s : string) :
  installed self (heap st) ->
  parameter_set (resolve self (PyStr s) st) = Some (resolved s).
Proof.
  destruct st as [h lg]. cbn [heap]. intros Hi.
  rewrite (resolve_spec _ _ _ _ Hi). cbn [parameter_set heap].
  rewrite nth_error_app2 by lia.
  replace (S (length h) - length h) with 1 by lia. reflexivity.
Qed.

Lemma lookup_param_resolve (self : interp) (st : state) (s key : string) :
  installed self (heap st) ->
  lookup_param (resolve self (PyStr s) st) key
  = match last_writer (matched_words (lower s)) key with
    | Some v => Some v
    | None => dict_get default_params_literal key
    end.
Proof.
  intros Hi. unfold lookup_param. rewrite (parameter_set_resolve _ _ _ Hi).
  apply dict_get_apply_words.
Qed.

(** *** Behind the resolver *)

Lemma resolved_has_default_keys (s key : string) :
  In key default_keys -> dict_get (resolved s) key <> None.
Proof.
  intros Hk. unfold resolved. rewrite dict_get_apply_words.
  destruct (last_writer (matched_words (lower s)) key); [discriminate|].
  apply dict_mem_keys in Hk. unfold dict_mem in Hk.
  destruct (dict_get default_params_literal key); [discriminate | discriminate].
Qed.

(** No ParameterSet has a ["color_scheme"]: the defaults do not, and no rule
    writes one. *)
Lemma resolved_no_color_scheme (s : string) :
  dict_get (resolved s) "color_scheme" = None.
Proof.
  unfold resolved. rewrite dict_get_apply_words.
  rewrite last_writer_none; [reflexivity|].
  intros w _. apply never_written. vm_compute. reflexivity.
Qed.

Section Generators.

Variable floor_plan urban landscape structure parametric_form
  : interp -> pyval -> M (list pyval).
Variable rhino_code grasshopper_code : interp -> list pyval -> M string.

Lemma generate_operations_raises (self : interp) (st : state) (p : loc) (d : dict) :
  nth_error (heap st) p = Some d ->
  dict_get d "grid_size" <> None ->
  dict_get d "material" <> None ->
  dict_get d "color_scheme" = None ->
  _generate_operations floor_plan urban landscape structure parametric_form
                       self (PyRef p) st
  = (Raise (KeyError "color_scheme"), st).
Proof.
  intros Hp Hg Hm Hc. destruct st as [h lg]. cbn [heap] in Hp.
  unfold _generate_operations.
  unfold bind at 1. unfold dict_getd, bind, deref. cbn [heap log]. rewrite Hp.
  assert (Hret : forall v : pyval,
             (match dict_get d "design_domain" with
              | Some v' => ret v'
              | None => ret v
              end) (mkState h lg)
             = (Ok (match dict_get d "design_domain" with Some v' => v' | None => v end),
                mkState h lg))
    by (intros v; destruct (dict_get d "design_domain"); reflexivity).
  rewrite Hret.
  unfold getitem, bind, deref. cbn [heap log]. rewrite Hp.
  destruct (dict_get d "grid_size") as [g|]; [|congruence].
  unfold ret at 1. cbn [heap log]. rewrite Hp.
  destruct (dict_get d "material") as [m|]; [|congruence].
  unfold ret at 1. cbn [heap log]. rewrite Hp, Hc. reflexivity.
Qed.

Lemma generate_raises (self : interp) (st : state) (p : loc) (d : dict) :
  nth_error (heap st) p = Some d ->
  dict_get d "grid_size" <> None ->
  dict_get d "material" <> None ->
  dict_get d "color_scheme" = None ->
  generate floor_plan urban landscape structure parametric_form
           rhino_code grasshopper_code self (PyRef p) st
  = (Raise (KeyError "color_scheme"), st).
Proof.
  intros Hp Hg Hm Hc. unfold generate. unfold bind at 1.
  now rewrite (generate_operations_raises self st p d Hp Hg Hm Hc).
Qed.

(** What [interpret_brief] does with a string. *)
Lemma interpret_brief_spec (self : interp) (h : list dict) (lg : list log_entry)
      (s : string) :
  installed self h ->
  interpret_brief floor_plan urban landscape structure parametric_form
                  rhino_code grasshopper_code self (PyStr s) (mkState h lg)
  = (Ok (ErrorRecord "'color_scheme'" (PyStr s)),
     mkState (h ++ [extract_dict (lower s); resolved s])
             (lg ++ [LogInfo "Processing design brief: {0}" (PyStr s);
                     LogDebug "Extracted keywords: {0}" (PyRef (length h));
                     LogDebug "Derived parameters: {0}" (PyRef (S (length h)));
                     LogError "Error interpreting design brief: {0}" "'color_scheme'"])).
Proof.
  intros Hi.
  unfold interpret_brief, try_except.
  unfold bind at 1. rewrite (resolve_logged_spec _ _ _ _ Hi).
  cbv beta iota. unfold bind at 1.
  rewrite (generate_raises self _ (S (length h)) (resolved s)).
  - unfold bind, logger, ret. cbn [heap log exn_str].
    rewrite <- !app_assoc. reflexivity.
  - cbn [heap]. rewrite nth_error_app2 by lia.
    replace (S (length h) - length h) with 1 by lia. reflexivity.
  - apply resolved_has_default_keys. vm_compute. tauto.
  - apply resolved_has_default_keys. vm_compute. tauto.
  - apply resolved_no_color_scheme.
Qed.

End Generators.

End RunFacts.

(* ===================================================================== *)
(** ** What the resolver leaves alone, in any state                       *)
(* ===================================================================== *)

Module FrameFacts.

Lemma heap_set_length (h : list dict) (l : loc) (d : dict) :
  length (heap_set h l d) = length h.
Proof.
  revert l; induction h as [|x h IH]; intros [|l]; simpl; auto.
Qed.

Lemma heap_set_other (h : list dict) (l i : loc) (d : dict) :
  i <> l -> nth_error (heap_set h l d) i = nth_error h i.
Proof.
  revert l i; induction h as [|x h IH]; intros [|l] [|i] H; simpl; auto;
    congruence.
Qed.

Lemma reads_only_ret {A} (a : A) : reads_only (ret a).
Proof. intros st. reflexivity. Qed.

Lemma reads_only_raise {A} (e : exn) : reads_only (@raise A e).
Proof. intros st. reflexivity. Qed.

Lemma reads_only_bind {A B} (m : M A) (k : A -> M B) :
  reads_only m -> (forall a, reads_only (k a)) -> reads_only (bind m k).
Proof.
  intros Hm Hk st. unfold bind. specialize (Hm st).
  destruct (m st) as [[a|e] st1]; simpl in Hm; subst st1; [apply Hk | reflexivity].
Qed.

Lemma reads_only_deref (f : pyval -> exn) (o : pyval) : reads_only (deref f o).
Proof.
  intros st. destruct o; try reflexivity.
  simpl. destruct (nth_error (heap st) l); reflexivity.
Qed.

Lemma reads_only_dict_items (o : pyval) : reads_only (dict_items o).
Proof. apply reads_only_deref. Qed.

Lemma reads_only_getitem (o : pyval) (k : string) : reads_only (getitem o k).
Proof.
  apply reads_only_bind; [apply reads_only_deref|].
  intros d. destruct (dict_get d k); [apply reads_only_ret | apply reads_only_raise].
Qed.

Lemma reads_only_getitem_v (o k : pyval) : reads_only (getitem_v o k).
Proof.
  destruct k; simpl;
    try apply reads_only_getitem; try apply reads_only_raise;
    (apply reads_only_bind; [apply reads_only_deref | intros; apply reads_only_raise]).
Qed.

Lemma reads_only_py_in (k o : pyval) : reads_only (py_in k o).
Proof.
  apply reads_only_bind; [apply reads_only_deref|].
  intros d. destruct k; try apply reads_only_ret; apply reads_only_raise.
Qed.

Lemma reads_only_iter_list (o : pyval) : reads_only (iter_list o).
Proof. destruct o; try apply reads_only_raise. apply reads_only_ret. Qed.

Lemma reads_only_call_lower (o : pyval) : reads_only (call_lower o).
Proof. destruct o; try apply reads_only_raise; apply reads_only_ret. Qed.

Lemma reads_only_re_findall (pattern text : pyval) : reads_only (re_findall pattern text).
Proof.
  destruct pattern; try apply reads_only_raise.
  simpl. destruct (Re.parse_group s); [|apply reads_only_raise].
  destruct text; try apply reads_only_raise. apply reads_only_ret.
Qed.

Lemma same_below_refl (n : nat) (st : state) : same_below n st st.
Proof. repeat split. Qed.

Lemma same_below_trans (n : nat) (a b c : state) :
  same_below n a b -> same_below n b c -> same_below n a c.
Proof.
  intros (Hl1 & Hn1 & Hp1) (Hl2 & Hn2 & Hp2). repeat split; try congruence.
  intros l Hl. now rewrite Hp2, Hp1.
Qed.

Lemma reads_only_same_below {A} (m : M A) (n : nat) (st : state) :
  reads_only m -> same_below n st (snd (m st)).
Proof. intros H. rewrite H. apply same_below_refl. Qed.

Lemma bind_same_below {A B} (m : M A) (k : A -> M B) (n : nat) :
  (forall st, same_below n st (snd (m st))) ->
  (forall a st, same_below n st (snd (k a st))) ->
  forall st, same_below n st (snd (bind m k st)).
Proof.
  intros Hm Hk st. unfold bind. specialize (Hm st).
  destruct (m st) as [[a|e] st1]; simpl in *; [|exact Hm].
  eapply same_below_trans; [exact Hm | apply Hk].
Qed.

Lemma setitem_same_below (n p : nat) (k : string) (v : pyval) (st : state) :
  n <= p -> same_below n st (snd (setitem (PyRef p) k v st)).
Proof.
  intros Hle. unfold setitem, bind, deref.
  destruct (nth_error (heap st) p) as [d|]; simpl; [|apply same_below_refl].
  repeat split.
  - apply heap_set_length.
  - intros l Hl. apply heap_set_other. lia.
Qed.

Lemma for_each_same_below {A} (body : A -> M unit) (n : nat) (l : list A) :
  (forall x st, same_below n st (snd (body x st))) ->
  forall st, same_below n st (snd (for_each l body st)).
Proof.
  intros Hbody. induction l as [|x r IH]; intros st; cbn [for_each].
  - apply same_below_refl.
  - apply bind_same_below; [apply Hbody | intros _; apply IH].
Qed.

Lemma alloc_then_same_below {A} (d : dict) (k : pyval -> M A) (st : state) :
  (forall s, same_below (length (heap st)) s (snd (k (PyRef (length (heap st))) s))) ->
  log (snd (bind (new_dict d) k st)) = log st
  /\ length (heap (snd (bind (new_dict d) k st))) = S (length (heap st))
  /\ (forall l, l < length (heap st) ->
        nth_error (heap (snd (bind (new_dict d) k st))) l = nth_error (heap st) l).
Proof.
  intros H. unfold bind, new_dict.
  destruct (H (mkState (heap st ++ [d]) (log st))) as (Hlog & Hlen & Hpre).
  cbn [heap log] in *.
  split; [exact Hlog|]. split.
  - rewrite Hlen, length_app. simpl. lia.
  - intros l Hl. rewrite (Hpre l Hl). now apply nth_error_app1.
Qed.

(** [_extract_keywords] creates one dict and writes to nothing else. *)
Lemma extract_frame (self : interp) (brief : pyval) (st : state) :
  log (snd (_extract_keywords self brief st)) = log st
  /\ length (heap (snd (_extract_keywords self brief st))) = S (length (heap st))
  /\ (forall l, l < length (heap st) ->
        nth_error (heap (snd (_extract_keywords self brief st))) l
        = nth_error (heap st) l).
Proof.
  unfold _extract_keywords. apply alloc_then_same_below.
  apply bind_same_below; [intros s; apply reads_only_same_below, reads_only_call_lower|].
  intros brief_lower.
  apply bind_same_below; [intros s; apply reads_only_same_below, reads_only_dict_items|].
  intros items.
  apply bind_same_below; [|intros _ s; apply reads_only_same_below, reads_only_ret].
  apply for_each_same_below. intros [category pattern].
  apply bind_same_below; [intros s; apply reads_only_same_below, reads_only_re_findall|].
  intros matches s. destruct (list_truth matches).
  - apply setitem_same_below. lia.
  - apply same_below_refl.
Qed.

(** [_derive_parameters], where it returns, created one dict and wrote to
    nothing else. *)
Lemma derive_frame (self : interp) (keywords params : pyval) (st st1 : state) :
  _derive_parameters self keywords st = (Ok params, st1) ->
  log st1 = log st
  /\ length (heap st1) = S (length (heap st))
  /\ (forall l, l < length (heap st) -> nth_error (heap st1) l = nth_error (heap st) l).
Proof.
  unfold _derive_parameters. unfold bind at 1. unfold dict_copy at 1.
  unfold bind at 1.
  pose proof (reads_only_deref (no_attribute "copy") (default_params self) st) as Hd.
  destruct (deref (no_attribute "copy") (default_params self) st) as [[d|e] s0];
    simpl in Hd; subst s0; [|discriminate].
  cbn [new_dict].
  set (st0 := mkState (heap st ++ [d]) (log st)).
  intros Hrun.
  match type of Hrun with
  | ?k st0 = _ =>
      assert (H : same_below (length (heap st)) st0 (snd (k st0)))
  end.
  { apply bind_same_below; [intros s; apply reads_only_same_below, reads_only_dict_items|].
    intros items.
    apply bind_same_below; [|intros _ s; apply reads_only_same_below, reads_only_ret].
    apply for_each_same_below. intros [category words].
    apply bind_same_below; [intros s; apply reads_only_same_below, reads_only_iter_list|].
    intros ws. apply for_each_same_below. intros word.
    apply bind_same_below; [intros s; apply reads_only_same_below, reads_only_py_in|].
    intros known s. destruct known; [|apply same_below_refl].
    revert s.
    apply bind_same_below; [intros s; apply reads_only_same_below, reads_only_getitem_v|].
    intros rule.
    apply bind_same_below; [intros s; apply reads_only_same_below, reads_only_dict_items|].
    intros entries. apply for_each_same_below. intros [key value] s.
    apply setitem_same_below. lia. }
  rewrite Hrun in H. cbn [snd] in H.
  destruct H as (Hlog & Hlen & Hpre).
  split; [exact Hlog|]. split.
  - rewrite Hlen. unfold st0. cbn [heap]. rewrite length_app. simpl. lia.
  - intros l Hl. rewrite (Hpre l Hl). unfold st0. cbn [heap].
    now apply nth_error_app1.
Qed.

(** The first part of the [try] block, where it returns: three log lines,
    two new dicts, nothing else written. *)
Lemma resolve_logged_frame (self : interp) (brief kw params : pyval) (st st1 : state) :
  resolve_logged self brief st = (Ok (kw, params), st1) ->
  log st1 = (log st ++ [LogInfo "Processing design brief: {0}" brief;
                        LogDebug "Extracted keywords: {0}" kw;
                        LogDebug "Derived parameters: {0}" params])%list
  /\ length (heap st1) = length (heap st) + 2
  /\ (forall l, l < length (heap st) -> nth_error (heap st1) l = nth_error (heap st) l).
Proof.
  unfold resolve_logged. unfold bind at 1. cbn [logger].
  set (sa := mkState (heap st) (log st ++ [LogInfo "Processing design brief: {0}" brief])).
  unfold bind at 1.
  pose proof (extract_frame self brief sa) as (Hlog1 & Hlen1 & Hpre1).
  destruct (_extract_keywords self brief sa) as [[keywords|e] sb]; [|discriminate].
  cbn [snd] in *.
  unfold bind at 1. cbn [logger].
  set (sc := mkState (heap sb) (log sb ++ [LogDebug "Extracted keywords: {0}" keywords])).
  unfold bind at 1.
  destruct (_derive_parameters self keywords sc) as [[p|e] sd] eqn:Hder; [|discriminate].
  apply derive_frame in Hder as (Hlog2 & Hlen2 & Hpre2).
  unfold bind at 1. cbn [logger]. unfold ret.
  intros [= <- <- <-]. cbn [heap log] in *.
  split; [|split].
  - rewrite Hlog2. unfold sc. cbn [log]. rewrite Hlog1. unfold sa. cbn [log].
    now rewrite <- !app_assoc.
  - rewrite Hlen2. unfold sc. cbn [heap]. rewrite Hlen1. unfold sa. cbn [heap]. lia.
  - intros l Hl. rewrite Hpre2 by (unfold sc; cbn [heap]; rewrite Hlen1; unfold sa; cbn [heap]; lia).
    unfold sc. cbn [heap]. rewrite Hpre1 by (unfold sa; cbn [heap]; lia).
    reflexivity.
Qed.

(** Tables that were in place stay in place when the objects below them are
    left alone. *)
Lemma tables_in_kept (self : interp) (h h1 : list dict) :
  tables_in self h ->
  (forall l, l < length h -> nth_error h1 l = nth_error h l) ->
  tables_in self h1.
Proof.
  intros (ld & lk & lp & outer & Hself & Hd & Hk & Hp & Hrules) Hsame.
  assert (Hkeep : forall l d, nth_error h l = Some d -> nth_error h1 l = Some d).
  { intros l d Hl. rewrite Hsame; [exact Hl|]. apply nth_error_Some. congruence. }
  exists ld, lk, lp, outer. repeat split; auto.
  intros w. specialize (Hrules w).
  destruct (dict_get outer w); [|exact Hrules].
  destruct Hrules as (l & r & Hv & Hl & Hr). exists l, r. auto.
Qed.

End FrameFacts.

(* ===================================================================== *)
(** ** Properties of the resolver                                         *)
(* ===================================================================== *)

Import Str StrFacts Re ReFacts DictFacts ResolveFacts RunFacts.

Lemma boot_installed : installed boot_self (heap boot_state).
Proof. exists (mkState [] []), boot_state, []. split; reflexivity. Defined.

Lemma last_writer_app (a b : list string) (k : string) :
  last_writer (a ++ b) k
  = match last_writer b k with Some v => Some v | None => last_writer a k end.
Proof.
  induction a as [|w a IH]; simpl.
  - destruct (last_writer b k); reflexivity.
  - rewrite IH. destruct (last_writer b k); reflexivity.
Qed.

Lemma group_names_distinct (g g' : string * list string) :
  In g pattern_groups -> In g' pattern_groups -> fst g = fst g' -> g = g'.
Proof.
  unfold pattern_groups. simpl. intros Hg Hg' Heq.
  repeat (destruct Hg as [<-|Hg]; [|]); try contradiction;
    repeat (destruct Hg' as [<-|Hg']; [|]); try contradiction;
    simpl in Heq; try discriminate Heq; reflexivity.
Qed.

(** C5: a brief whose lower-cased text contains no keyword that carries a
    rule resolves to exactly the default ParameterSet. *)
Theorem no_keyword_yields_defaults (self : interp) (st : state) (brief : string) :
  installed self (heap st) ->
  (forall k, In k rule_keywords -> ~ contains k (lower brief)) ->
  parameter_set (resolve self (PyStr brief) st) = Some default_params_literal.
Proof.
  intros Hi Hnone. rewrite (parameter_set_resolve _ _ _ Hi). f_equal.
  unfold resolved. apply apply_words_no_rule.
  intros w Hw. destruct (rule_of w) as [rule|] eqn:E; [|reflexivity].
  exfalso. apply matched_words_sound in Hw as [_ Hc].
  apply (Hnone w); [now apply rule_of_keyword in E | exact Hc].
Qed.

Lemma no_keyword_yields_defaults_witness :
  installed boot_self (heap boot_state)
  /\ (forall k, In k rule_keywords -> ~ contains k (lower "An office BUILDING, 12 floors"))
  /\ parameter_set (resolve boot_self (PyStr "An office BUILDING, 12 floors") boot_state)
     = Some default_params_literal.
Proof.
  assert (Hnone : forall k, In k rule_keywords ->
                            ~ contains k (lower "An office BUILDING, 12 floors")).
  { intros k Hk Hc. apply containsb_spec in Hc. vm_compute in Hk.
    repeat (destruct Hk as [<-|Hk]; [vm_compute in Hc; discriminate Hc|]).
    contradiction. }
  split; [exact boot_installed|]. split; [exact Hnone|].
  exact (no_keyword_yields_defaults boot_self boot_state _ boot_installed Hnone).
Defined.

(** C6: on a string the resolver always returns a ParameterSet and never
    raises, whatever the characters of the string; on the empty string it
    returns the defaults. *)
Theorem resolver_never_raises (self : interp) (st : state) :
  installed self (heap st) ->
  (forall brief : string,
      exists p st' d,
        resolve self (PyStr brief) st = (Ok (PyRef p), st')
        /\ nth_error (heap st') p = Some d)
  /\ parameter_set (resolve self (PyStr "") st) = Some default_params_literal.
Proof.
  intros Hi. split.
  - intros brief. destruct st as [h lg]. cbn [heap] in Hi.
    rewrite (resolve_spec _ _ _ _ Hi).
    exists (S (length h)), (mkState (h ++ [extract_dict (lower brief); resolved brief]) lg),
           (resolved brief).
    split; [reflexivity|]. cbn [heap].
    rewrite nth_error_app2 by lia.
    replace (S (length h) - length h) with 1 by lia. reflexivity.
  - rewrite (parameter_set_resolve _ _ _ Hi). reflexivity.
Qed.

Lemma resolver_never_raises_witness :
  installed boot_self (heap boot_state)
  /\ (exists p st' d,
        resolve boot_self (PyStr "12 x 30 !?") boot_state = (Ok (PyRef p), st')
        /\ nth_error (heap st') p = Some d)
  /\ parameter_set (resolve boot_self (PyStr "") boot_state) = Some default_params_literal.
Proof.
  split; [exact boot_installed|].
  destruct (resolver_never_raises boot_self boot_state boot_installed) as [Hall Hempty].
  split; [exact (Hall "12 x 30 !?") | exact Hempty].
Defined.

(** C7: two runs of the resolver on the same text, the second one in the
    state the first one left, return equal ParameterSets; so does a run in
    any other state of the interpreter.  A run leaves every object that was
    in the heap as it was, the three tables among them, and writes no log. *)
Theorem resolution_is_deterministic_and_pure (self : interp) (st : state) (brief : string) :
  installed self (heap st) ->
  (exists p1 st1 p2 st2 d,
      resolve self (PyStr brief) st = (Ok (PyRef p1), st1)
      /\ resolve self (PyStr brief) st1 = (Ok (PyRef p2), st2)
      /\ nth_error (heap st2) p1 = Some d
      /\ nth_error (heap st2) p2 = Some d
      /\ (forall l, l < length (heap st) ->
                    nth_error (heap st1) l = nth_error (heap st) l
                    /\ nth_error (heap st2) l = nth_error (heap st) l)
      /\ tables_in self (heap st1) /\ tables_in self (heap st2)
      /\ log st1 = log st /\ log st2 = log st)
  /\ (forall st', installed self (heap st') ->
                  parameter_set (resolve self (PyStr brief) st')
                  = parameter_set (resolve self (PyStr brief) st)).
Proof.
  intros Hi. split.
  - destruct st as [h lg]. cbn [heap log] in *.
    pose proof (installed_ext _ _ [extract_dict (lower brief); resolved brief] Hi) as Hi1.
    pose proof (installed_ext _ _ [extract_dict (lower brief); resolved brief] Hi1) as Hi2.
    eexists _, _, _, _, (resolved brief).
    split; [apply (resolve_spec _ _ _ _ Hi)|].
    split; [apply (resolve_spec _ _ _ _ Hi1)|].
    cbn [heap log]. rewrite !length_app. cbn [length].
    repeat split.
    + rewrite nth_error_app1 by (rewrite length_app; cbn [length]; lia).
      rewrite nth_error_app2 by lia.
      replace (S (length h) - length h) with 1 by lia. reflexivity.
    + rewrite nth_error_app2 by (rewrite length_app; cbn [length]; lia).
      rewrite length_app. cbn [length].
      replace (S (length h + 2) - (length h + 2)) with 1 by lia. reflexivity.
    + now rewrite nth_error_app1 by lia.
    + rewrite nth_error_app1 by (rewrite length_app; cbn [length]; lia).
      now rewrite nth_error_app1 by lia.
    + now apply installed_tables.
    + now apply installed_tables.
  - intros st' Hi'.
    now rewrite (parameter_set_resolve _ _ _ Hi), (parameter_set_resolve _ _ _ Hi').
Qed.

Lemma resolution_is_deterministic_and_pure_witness :
  installed boot_self (heap boot_state)
  /\ forall st', installed boot_self (heap st') ->
       parameter_set (resolve boot_self (PyStr "a kinetic timber tower") st')
       = parameter_set (resolve boot_self (PyStr "a kinetic timber tower") boot_state).
Proof.
  split; [exact boot_installed|].
  exact (proj2 (resolution_is_deterministic_and_pure
                  boot_self boot_state "a kinetic timber tower" boot_installed)).
Defined.

(** C9: the ParameterSet of a brief has the 13 keys of the defaults, in
    their order, and at most the key "form" behind them; "form" is there
    exactly when the lower-cased text contains "tower"; a key for which no
    visited keyword has a rule holds its default value. *)
Theorem parameter_keys_are_kept (self : interp) (st : state) (brief : string) :
  installed self (heap st) ->
  exists d,
    parameter_set (resolve self (PyStr brief) st) = Some d
    /\ length default_keys = 13
    /\ (dict_keys d = default_keys \/ dict_keys d = (default_keys ++ ["form"])%list)
    /\ (forall k, In k default_keys -> In k (dict_keys d))
    /\ (In "form" (dict_keys d) <-> contains "tower" (lower brief))
    /\ (forall k,
          (forall w, In w (matched_words (lower brief)) -> writes w k = None) ->
          dict_get d k = dict_get default_params_literal k).
Proof.
  intros Hi. exists (resolved brief).
  split; [apply (parameter_set_resolve _ _ _ Hi)|].
  split; [reflexivity|].
  pose proof (keys_ok_resolved brief) as Hkeys.
  split; [exact Hkeys|].
  split.
  { intros k Hk. destruct Hkeys as [-> | ->]; [exact Hk | apply in_or_app; now left]. }
  split.
  { rewrite <- dict_mem_keys. unfold dict_mem, resolved.
    rewrite dict_get_apply_words. rewrite tower_matched.
    change (dict_get default_params_literal "form") with (@None pyval).
    split.
    - destruct (last_writer (matched_words (lower brief)) "form") as [v|] eqn:E;
        [|discriminate].
      intros _. apply last_writer_some in E as (w & Hw & Hv).
      apply writes_form in Hv as [-> _]. exact Hw.
    - intros Hin.
      destruct (last_writer (matched_words (lower brief)) "form") as [v|] eqn:E;
        [reflexivity|].
      pose proof (last_writer_none_inv _ _ E "tower" Hin) as Hn. discriminate Hn. }
  intros k Hk. unfold resolved. rewrite dict_get_apply_words.
  now rewrite (last_writer_none _ _ Hk).
Qed.

Lemma parameter_keys_are_kept_witness :
  installed boot_self (heap boot_state)
  /\ exists d,
       parameter_set (resolve boot_self (PyStr "a glass tower") boot_state) = Some d
       /\ dict_keys d = (default_keys ++ ["form"])%list.
Proof.
  split; [exact boot_installed|].
  destruct (parameter_keys_are_kept boot_self boot_state "a glass tower" boot_installed)
    as (d & Hd & _).
  exists d. split; [exact Hd|].
  vm_compute in Hd. injection Hd as <-. reflexivity.
Defined.

(** C10: the dict [_extract_keywords] returns has an entry exactly for the
    pattern groups with a match in the lower-cased text; the value of an
    entry is the non-empty list of that group's matches. *)
Theorem extracted_groups_are_non_empty (self : interp) (st : state) (brief : string) :
  installed self (heap st) ->
  exists p st' kw,
    _extract_keywords self (PyStr brief) st = (Ok (PyRef p), st')
    /\ nth_error (heap st') p = Some kw
    /\ (forall c v, In (c, v) kw ->
          exists g m ms,
            In g pattern_groups /\ c = fst g
            /\ group_matches (lower brief) g = m :: ms
            /\ v = PyList (PyStr m :: map PyStr ms))
    /\ (forall g, In g pattern_groups ->
          (In (fst g) (dict_keys kw) <-> group_matches (lower brief) g <> [])).
Proof.
  intros Hi. apply installed_tables in Hi as Ht.
  destruct st as [h lg]. cbn [heap] in *.
  exists (length h), (mkState (h ++ [extract_dict (lower brief)]) lg),
         (extract_dict (lower brief)).
  split; [apply (extract_spec _ _ _ _ Ht)|].
  split; [apply nth_error_last|].
  rewrite extract_dict_entries. unfold keyword_entries.
  split.
  - intros c v Hin.
    apply in_map_iff in Hin as ([c' ms'] & Heq & Hin).
    apply filter_In in Hin as [Hin Hne].
    apply in_map_iff in Hin as (g & Hg & Hing).
    injection Hg as <- <-. unfold entry_value in Heq. cbn [fst snd] in *.
    injection Heq as <- <-.
    destruct (group_matches (lower brief) g) as [|m ms] eqn:E; [discriminate|].
    exists g, m, ms. repeat split; auto.
  - intros g Hg. unfold dict_keys. rewrite map_map. cbn [entry_value fst].
    split.
    + intros Hin. apply in_map_iff in Hin as ([c' ms'] & Heq & Hin).
      apply filter_In in Hin as [Hin Hne].
      apply in_map_iff in Hin as (g' & Hg' & Hing').
      injection Hg' as <- <-. cbn [fst snd] in *.
      rewrite <- (group_names_distinct g' g Hing' Hg Heq).
      destruct (group_matches (lower brief) g'); [discriminate | discriminate].
    + intros Hne. apply in_map_iff.
      exists (fst g, group_matches (lower brief) g). split; [reflexivity|].
      apply filter_In. split.
      * apply in_map_iff. now exists g.
      * cbn [snd]. destruct (group_matches (lower brief) g); [congruence | reflexivity].
Qed.

Lemma extracted_groups_are_non_empty_witness :
  installed boot_self (heap boot_state)
  /\ exists p st' kw,
       _extract_keywords boot_self (PyStr "Glass louvres, no views") boot_state
       = (Ok (PyRef p), st')
       /\ nth_error (heap st') p = Some kw
       /\ dict_keys kw = ["facade_type"; "views"; "materials"].
Proof.
  split; [exact boot_installed|].
  destruct (extracted_groups_are_non_empty
              boot_self boot_state "Glass louvres, no views" boot_installed)
    as (p & st' & kw & Hrun & Hkw & _).
  exists p, st', kw. split; [exact Hrun|]. split; [exact Hkw|].
  vm_compute in Hrun. injection Hrun as <- <-.
  vm_compute in Hkw. injection Hkw as <-. reflexivity.
Defined.

(** C3: the keywords are visited group by group in the order of
    [self.patterns], and within a group in the order of their matches in the
    text; a parameter holds what the last visited keyword with a rule for it
    wrote.  In "a dynamic and static facade" the rule of "static" is the
    last one visited, so [responsive_panels] is [False] and
    [panel_rotation_limit] is 0. *)
Theorem last_write_wins (self : interp) (st : state) :
  installed self (heap st) ->
  (forall brief before w after key v,
      matched_words (lower brief) = (before ++ w :: after)%list ->
      writes w key = Some v ->
      (forall w', In w' after -> writes w' key = None) ->
      lookup_param (resolve self (PyStr brief) st) key = Some v)
  /\ (forall text,
        matched_words text = flat_map (fun g => Re.scan (snd g) 0 text) pattern_groups)
  /\ matched_words (lower "a dense tower") = ["tower"; "dense"]
  /\ matched_words (lower "a dynamic and static facade") = ["dynamic"; "static"]
  /\ lookup_param (resolve self (PyStr "a dynamic and static facade") st)
                  "responsive_panels" = Some (PyBool false)
  /\ lookup_param (resolve self (PyStr "a dynamic and static facade") st)
                  "panel_rotation_limit" = Some (PyInt 0).
Proof.
  intros Hi. split.
  { intros brief before w after key v Hwords Hw Hafter.
    rewrite (lookup_param_resolve _ _ _ _ Hi), Hwords, last_writer_app.
    cbn [last_writer]. rewrite (last_writer_none _ _ Hafter), Hw. reflexivity. }
  split; [reflexivity|].
  split; [vm_compute; reflexivity|].
  split; [vm_compute; reflexivity|].
  split; rewrite (lookup_param_resolve _ _ _ _ Hi); vm_compute; reflexivity.
Qed.

Lemma last_write_wins_witness :
  installed boot_self (heap boot_state)
  /\ matched_words (lower "a dynamic and static facade") = (["dynamic"] ++ "static" :: [])%list
  /\ writes "dynamic" "responsive_panels" = Some (PyBool true)
  /\ writes "static" "responsive_panels" = Some (PyBool false)
  /\ lookup_param (resolve boot_self (PyStr "a dynamic and static facade") boot_state)
                  "responsive_panels" = Some (PyBool false).
Proof.
  split; [exact boot_installed|].
  split; [vm_compute; reflexivity|].
  split; [vm_compute; reflexivity|].
  split; [vm_compute; reflexivity|].
  refine (proj1 (last_write_wins boot_self boot_state boot_installed)
                "a dynamic and static facade" ["dynamic"] "static" []
                "responsive_panels" (PyBool false) _ _ _).
  - vm_compute. reflexivity.
  - vm_compute. reflexivity.
  - intros w' [].
Defined.

Lemma in_split_last (x : string) (l : list string) :
  In x l -> exists before after, l = (before ++ x :: after)%list /\ ~ In x after.
Proof.
  induction l as [|a l IH]; intros Hin; [contradiction|].
  destruct (in_dec string_dec x l) as [Hl|Hl].
  - destruct (IH Hl) as (before & after & -> & Hnot).
    exists (a :: before), after. split; [reflexivity | exact Hnot].
  - destruct Hin as [->|Hin]; [|contradiction].
    exists [], l. split; [reflexivity | exact Hl].
Qed.

(** What "tower" wrote to [k] is there at the end exactly when no rival is
    visited behind the last "tower": every other keyword either has no rule
    for [k] or is a rival and writes another value. *)
Lemma tower_value_iff (k : string) (v : pyval) (rivals : list string)
      (before after : list string) :
  (forall w, In w all_alternatives ->
             w = "tower"
             \/ (In w rivals /\ exists v', writes w k = Some v' /\ v' <> v)
             \/ (~ In w rivals /\ writes w k = None)) ->
  (forall w, In w after -> In w all_alternatives) ->
  ~ In "tower" after ->
  writes "tower" k = Some v ->
  (last_writer (before ++ "tower" :: after) k = Some v
   <-> forall w, In w after -> ~ In w rivals).
Proof.
  intros Hcases Halt Hnot Htower.
  rewrite last_writer_app. cbn [last_writer]. rewrite Htower.
  assert (Hafter : forall w, In w after ->
                     (In w rivals /\ exists v', writes w k = Some v' /\ v' <> v)
                     \/ (~ In w rivals /\ writes w k = None)).
  { intros w Hw. destruct (Hcases w (Halt w Hw)) as [-> | H]; [contradiction | exact H]. }
  split.
  - intros Hlast w Hw Hrival.
    destruct (last_writer after k) as [v''|] eqn:E.
    + apply last_writer_some in E as (w' & Hw' & Hv'').
      destruct (Hafter w' Hw') as [(_ & v3 & Hv3 & Hne) | (_ & Hnone)]; congruence.
    + pose proof (last_writer_none_inv _ _ E w Hw) as Hnone.
      destruct (Hafter w Hw) as [(_ & v3 & Hv3 & _) | (Hno & _)];
        [congruence | contradiction].
  - intros Hno. rewrite last_writer_none; [reflexivity|].
    intros w Hw. destruct (Hafter w Hw) as [(Hr & _) | (_ & Hnone)];
      [exfalso; exact (Hno w Hw Hr) | exact Hnone].
Qed.

(** C2, as the code has it: when the lower-cased text contains "tower", the
    form tag is "tower" whatever else the text holds.  [story_count] is 40
    exactly when none of the other keywords with a rule for [story_count]
    is visited behind the last "tower", and [panel_density] is 0.85 exactly
    when none of the other keywords with a rule for [panel_density] is
    visited behind the last "tower"; the keywords are visited group by
    group, each group's matches in the order of the text. *)
Theorem tower_value_holds_until_overwritten (self : interp) (st : state)
        (brief : string) :
  installed self (heap st) ->
  contains "tower" (lower brief) ->
  lookup_param (resolve self (PyStr brief) st) "form" = Some (PyStr "tower")
  /\ exists before after,
       matched_words (lower brief) = (before ++ "tower" :: after)%list
       /\ ~ In "tower" after
       /\ (lookup_param (resolve self (PyStr brief) st) "story_count" = Some (PyInt 40)
           <-> forall w, In w after -> ~ In w story_count_rivals)
       /\ (lookup_param (resolve self (PyStr brief) st) "panel_density"
           = Some (PyFloat 0.85%Q)
           <-> forall w, In w after -> ~ In w panel_density_rivals).
Proof.
  intros Hi Htower.
  pose proof (proj1 (tower_matched _) Htower) as Hin.
  rewrite !(lookup_param_resolve _ _ _ _ Hi).
  split.
  - rewrite (last_writer_agree _ "form" (PyStr "tower")); [reflexivity | |].
    + exists "tower". split; [exact Hin | reflexivity].
    + intros w _. destruct (writes w "form") as [v|] eqn:E; [|now left].
      apply writes_form in E as [_ ->]. now right.
  - destruct (in_split_last _ _ Hin) as (before & after & Hsplit & Hnot).
    exists before, after. split; [exact Hsplit|]. split; [exact Hnot|].
    assert (Halt : forall w, In w after -> In w all_alternatives).
    { intros w Hw. apply (matched_words_sound (lower brief)).
      rewrite Hsplit. apply in_or_app. right. now right. }
    rewrite Hsplit. split.
    + assert (Hsome : forall o : option pyval,
                 match o with Some v => Some v | None => Some (PyInt 5) end
                 = Some (PyInt 40) <-> o = Some (PyInt 40)).
      { intros [v|]; split; intros H; congruence. }
      change (dict_get default_params_literal "story_count") with (Some (PyInt 5)).
      rewrite Hsome.
      apply tower_value_iff; [|exact Halt | exact Hnot | reflexivity].
      intros w Ha. vm_compute in Ha.
      repeat (destruct Ha as [<-|Ha];
              [first [ left; reflexivity
                     | right; left; split;
                       [vm_compute; tauto
                       | eexists; split; [reflexivity | discriminate]]
                     | right; right; split;
                       [vm_compute; intuition discriminate | reflexivity] ]|]).
      contradiction.
    + assert (Hsome : forall o : option pyval,
                 match o with Some v => Some v | None => Some (PyFloat 0.8%Q) end
                 = Some (PyFloat 0.85%Q) <-> o = Some (PyFloat 0.85%Q)).
      { intros [v|]; split; intros H; congruence. }
      change (dict_get default_params_literal "panel_density")
        with (Some (PyFloat 0.8%Q)).
      rewrite Hsome.
      apply tower_value_iff; [|exact Halt | exact Hnot | reflexivity].
      intros w Ha. vm_compute in Ha.
      repeat (destruct Ha as [<-|Ha];
              [first [ left; reflexivity
                     | right; left; split;
                       [vm_compute; tauto
                       | eexists; split; [reflexivity | discriminate]]
                     | right; right; split;
                       [vm_compute; intuition discriminate | reflexivity] ]|]).
      contradiction.
Qed.

Lemma tower_value_holds_until_overwritten_witness :
  installed boot_self (heap boot_state)
  /\ contains "tower" (lower "A High-Rise TOWER in glass")
  /\ matched_words (lower "A High-Rise TOWER in glass") = ["high-rise"; "tower"; "glass"]
  /\ lookup_param (resolve boot_self (PyStr "A High-Rise TOWER in glass") boot_state)
                  "form" = Some (PyStr "tower")
  /\ lookup_param (resolve boot_self (PyStr "A High-Rise TOWER in glass") boot_state)
                  "story_count" = Some (PyInt 40)
  /\ lookup_param (resolve boot_self (PyStr "A High-Rise TOWER in glass") boot_state)
                  "panel_density" = Some (PyFloat 0.85%Q).
Proof.
  assert (Htower : contains "tower" (lower "A High-Rise TOWER in glass"))
    by (apply containsb_spec; vm_compute; reflexivity).
  destruct (tower_value_holds_until_overwritten
              boot_self boot_state "A High-Rise TOWER in glass" boot_installed Htower)
    as (Hform & before & after & Hsplit & Hnot & Hstory & Hdensity).
  split; [exact boot_installed|]. split; [exact Htower|].
  split; [vm_compute; reflexivity|]. split; [exact Hform|].
  assert (Hafter : after = ["glass"]).
  { vm_compute in Hsplit.
    destruct before as [|a [|b [|c before]]]; simpl in Hsplit.
    - discriminate Hsplit.
    - now injection Hsplit as _ <-.
    - discriminate Hsplit.
    - injection Hsplit as _ _ _ H. destruct before; discriminate H. }
  subst after.
  assert (Hfree : forall w, In w ["glass"] -> ~ In w panel_density_rivals).
  { intros w [<-|[]] H. vm_compute in H.
    repeat (destruct H as [H|H]; [discriminate H|]). exact H. }
  split.
  - apply Hstory. intros w Hw H. apply (Hfree w Hw).
    vm_compute in H. vm_compute. tauto.
  - apply Hdensity. exact Hfree.
Defined.

(** C2 as stated fails: a keyword visited after "tower" overwrites what
    "tower" wrote.  "high-rise" is matched later in the same group. *)
Lemma tower_overwritten_by_high_rise :
  contains "tower" "a tower next to a high-rise"
  /\ lookup_param (resolve boot_self (PyStr "a tower next to a high-rise") boot_state)
                  "story_count" = Some (PyInt 30)
  /\ lookup_param (resolve boot_self (PyStr "a tower next to a high-rise") boot_state)
                  "panel_density" = Some (PyFloat 0.9%Q)
  /\ ~ (lookup_param (resolve boot_self (PyStr "a tower next to a high-rise") boot_state)
                     "story_count" = Some (PyInt 40)
        /\ lookup_param (resolve boot_self (PyStr "a tower next to a high-rise") boot_state)
                        "panel_density" = Some (PyFloat 0.85%Q)).
Proof.
  split; [apply containsb_spec; vm_compute; reflexivity|].
  split; [vm_compute; reflexivity|].
  split; [vm_compute; reflexivity|].
  intros [H _]. vm_compute in H. discriminate H.
Qed.

Section Interpretation.

Variable _generate_floor_plan_operations : interp -> pyval -> M (list pyval).
Variable _generate_urban_operations : interp -> pyval -> M (list pyval).
Variable _generate_landscape_operations : interp -> pyval -> M (list pyval).
Variable _generate_structure_operations : interp -> pyval -> M (list pyval).
Variable _generate_parametric_form_operations : interp -> pyval -> M (list pyval).
Variable _generate_rhino_code : interp -> list pyval -> M string.
Variable _generate_grasshopper_code : interp -> list pyval -> M string.

Let interpret : interp -> pyval -> M response :=
  interpret_brief _generate_floor_plan_operations _generate_urban_operations
                  _generate_landscape_operations _generate_structure_operations
                  _generate_parametric_form_operations
                  _generate_rhino_code _generate_grasshopper_code.

Let generation : interp -> pyval -> M (list pyval * string * string) :=
  generate _generate_floor_plan_operations _generate_urban_operations
           _generate_landscape_operations _generate_structure_operations
           _generate_parametric_form_operations
           _generate_rhino_code _generate_grasshopper_code.

(** The [except] branch: whatever is raised in the [try] block behind the
    resolver comes back as the error record with the brief. *)
Lemma except_catches_generation (self : interp) (brief : pyval) (st st1 st2 : state)
      (kw params : pyval) (e : exn) :
  resolve_logged self brief st = (Ok (kw, params), st1) ->
  generation self params st1 = (Raise e, st2) ->
  interpret self brief st
  = (Ok (ErrorRecord (exn_str e) brief),
     mkState (heap st2)
             (log st2 ++ [LogError "Error interpreting design brief: {0}" (exn_str e)])).
Proof.
  intros Hres Hgen. unfold interpret, interpret_brief, try_except.
  unfold bind at 1. rewrite Hres. cbv beta iota.
  unfold bind at 1. unfold generation in Hgen. rewrite Hgen.
  reflexivity.
Qed.

(** C1, on the code: for every string, [interpret_brief] returns the record
    of its [except] branch, not the structured record.  [_generate_operations]
    reads [params["color_scheme"]], a key that neither the defaults nor any
    rule provides, and the [KeyError] is caught. *)
Theorem interpret_brief_returns_error_record (self : interp) (st : state) (brief : string) :
  installed self (heap st) ->
  fst (interpret self (PyStr brief) st)
  = Ok (ErrorRecord "'color_scheme'" (PyStr brief)).
Proof.
  intros Hi. destruct st as [h lg]. cbn [heap] in Hi.
  unfold interpret. now rewrite (interpret_brief_spec _ _ _ _ _ _ _ _ _ _ _ Hi).
Qed.

(** C8: when the statements behind the resolver raise, whatever the
    exception and whichever statement raised it (operation generation or
    one of the code generators), [interpret_brief] returns the error record
    with the exception's text and the brief it was given.  The handler adds
    one log line and nothing else: the heap is the one generation left, so
    resolution is not run a second time.  Resolution ran once, with three
    log lines and two new dicts, and left every object that was in the
    heap, the tables among them, as it was; the tables are still in place
    at the end when generation did not write to them. *)
Theorem generation_failure_is_reported (self : interp) (brief : pyval)
        (st st1 st2 : state) (kw params : pyval) (e : exn) :
  resolve_logged self brief st = (Ok (kw, params), st1) ->
  generation self params st1 = (Raise e, st2) ->
  interpret self brief st
  = (Ok (ErrorRecord (exn_str e) brief),
     mkState (heap st2)
             (log st2 ++ [LogError "Error interpreting design brief: {0}" (exn_str e)]))
  /\ log st1 = (log st ++ [LogInfo "Processing design brief: {0}" brief;
                           LogDebug "Extracted keywords: {0}" kw;
                           LogDebug "Derived parameters: {0}" params])%list
  /\ length (heap st1) = length (heap st) + 2
  /\ (forall l, l < length (heap st) -> nth_error (heap st1) l = nth_error (heap st) l)
  /\ (tables_in self (heap st) -> tables_in self (heap st1))
  /\ (tables_in self (heap st) ->
      (forall l, l < length (heap st1) -> nth_error (heap st2) l = nth_error (heap st1) l) ->
      tables_in self (heap st2)).
Proof.
  intros Hres Hgen.
  split; [apply (except_catches_generation _ _ _ _ _ _ _ _ Hres Hgen)|].
  destruct (FrameFacts.resolve_logged_frame _ _ _ _ _ _ Hres) as (Hlog & Hlen & Hpre).
  split; [exact Hlog|]. split; [exact Hlen|]. split; [exact Hpre|].
  assert (Htab : tables_in self (heap st) -> tables_in self (heap st1))
    by (intros Ht; now apply (FrameFacts.tables_in_kept self (heap st))).
  split; [exact Htab|].
  intros Ht Hkept. now apply (FrameFacts.tables_in_kept self (heap st1)); [apply Htab|].
Qed.


End Interpretation.

Lemma interpret_brief_returns_error_record_witness :
  installed boot_self (heap boot_state)
  /\ fst (interpret_brief no_operations no_operations no_operations no_operations
                          no_operations no_code no_code
                          boot_self (PyStr "a dynamic facade in glass") boot_state)
     = Ok (ErrorRecord "'color_scheme'" (PyStr "a dynamic facade in glass")).
Proof.
  split; [exact boot_installed|].
  exact (interpret_brief_returns_error_record
           no_operations no_operations no_operations no_operations no_operations
           no_code no_code boot_self boot_state "a dynamic facade in glass"
           boot_installed).
Defined.

Lemma generation_failure_is_reported_witness :
  exists kw params st1 st2,
    resolve_logged boot_self (PyStr "a tower") patched_state = (Ok (kw, params), st1)
    /\ generate no_operations no_operations no_operations no_operations no_operations
                failing_code no_code boot_self params st1
       = (Raise (RuntimeError "template failed"), st2)
    /\ length (heap st2) = length (heap st1) + 15
    /\ interpret_brief no_operations no_operations no_operations no_operations
                       no_operations failing_code no_code
                       boot_self (PyStr "a tower") patched_state
       = (Ok (ErrorRecord "template failed" (PyStr "a tower")),
          mkState (heap st2)
                  (log st2 ++ [LogError "Error interpreting design brief: {0}"
                                        "template failed"])).
Proof.
  assert (Hres : resolve_logged boot_self (PyStr "a tower") patched_state
                 = (Ok (PyRef 35, PyRef 36),
                    snd (resolve_logged boot_self (PyStr "a tower") patched_state)))
    by (vm_compute; reflexivity).
  assert (Hgen : generate no_operations no_operations no_operations no_operations
                          no_operations failing_code no_code boot_self (PyRef 36)
                          (snd (resolve_logged boot_self (PyStr "a tower") patched_state))
                 = (Raise (RuntimeError "template failed"),
                    snd (generate no_operations no_operations no_operations no_operations
                                  no_operations failing_code no_code boot_self (PyRef 36)
                                  (snd (resolve_logged boot_self (PyStr "a tower")
                                                       patched_state)))))
    by (vm_compute; reflexivity).
  eexists _, _, _, _. split; [exact Hres|]. split; [exact Hgen|].
  split; [vm_compute; reflexivity|].
  exact (proj1 (generation_failure_is_reported
                  no_operations no_operations no_operations no_operations no_operations
                  failing_code no_code boot_self (PyStr "a tower") patched_state
                  _ _ _ _ _ Hres Hgen)).
Defined.



(* ===================================================================== *)
(** ** Running the operation generators                                   *)
(* ===================================================================== *)

Module StepFacts.
Import Str StrFacts Re ReFacts DictFacts ResolveFacts RunFacts.

(** One statement at a time, in a heap [h ++ l] where [l] lists the objects
    created so far. *)

Lemma getitem_ext (h l : list dict) (lg : list log_entry) (p : loc) (d : dict)
      (k : string) (v : pyval) :
  nth_error h p = Some d -> dict_get d k = Some v ->
  getitem (PyRef p) k (mkState (h ++ l) lg) = (Ok v, mkState (h ++ l) lg).
Proof.
  intros Hp Hk. unfold getitem, bind, deref. cbn [heap].
  now rewrite (nth_error_before _ _ _ _ Hp), Hk.
Qed.

Lemma getitem_missing (h l : list dict) (lg : list log_entry) (p : loc) (d : dict)
      (k : string) :
  nth_error h p = Some d -> dict_get d k = None ->
  getitem (PyRef p) k (mkState (h ++ l) lg)
  = (Raise (KeyError k), mkState (h ++ l) lg).
Proof.
  intros Hp Hk. unfold getitem, bind, deref. cbn [heap].
  now rewrite (nth_error_before _ _ _ _ Hp), Hk.
Qed.

Lemma new_dict_ext (h l : list dict) (lg : list log_entry) (d : dict) :
  new_dict d (mkState (h ++ l) lg)
  = (Ok (PyRef (length l + length h)), mkState (h ++ (l ++ [d])) lg).
Proof.
  unfold new_dict. cbn [heap log].
  now rewrite length_app, app_assoc, Nat.add_comm.
Qed.

Lemma new_operation_ext (h l : list dict) (lg : list log_entry) (name : string)
      (params : pyval) :
  new_operation name params (mkState (h ++ l) lg)
  = (Ok (PyRef (length l + length h)),
     mkState (h ++ (l ++ [[("operation", PyStr name); ("params", params)]])) lg).
Proof. apply new_dict_ext. Qed.

Lemma py_truth_plain (v : pyval) (b : bool) (st : state) :
  plain_truth v = Some b -> py_truth v st = (Ok b, st).
Proof. destruct v; simpl; intros [= <-]; reflexivity. Qed.

Lemma nth_error_new (h l : list dict) (i : nat) :
  nth_error (h ++ l) (i + length h) = nth_error l i.
Proof.
  rewrite nth_error_app2 by lia. f_equal. lia.
Qed.

Lemma operation_entry_new (h l : list dict) (i : nat) (key : string) :
  operation_entry (h ++ l) (PyRef (i + length h)) key
  = match nth_error l i with Some d => dict_get d key | None => None end.
Proof. unfold operation_entry. now rewrite nth_error_new. Qed.

Lemma frame (h l : list dict) (i : loc) :
  i < length h -> nth_error (h ++ l) i = nth_error h i.
Proof. intros H. now apply nth_error_app1. Qed.

(** [run] executes the next statement of a generator whose parameters are
    the dict [d] at [p]; the lookups it needs are among the hypotheses. *)
Ltac run :=
  cbv beta iota;
  unfold bind at 1;
  first
    [ erewrite getitem_ext by eassumption
    | rewrite new_operation_ext
    | rewrite new_dict_ext
    | erewrite py_truth_plain by eassumption
    | unfold ret at 1
    | idtac ];
  cbn [app length Nat.add].

Ltac count_S t :=
  match t with
  | S ?t' => let n := count_S t' in constr:(S n)
  | _ => constr:(O)
  end.

(** [read_ops] looks up the operations created behind [h]. *)
Ltac read_ops :=
  repeat (match goal with
          | |- context [operation_entry (?h ++ ?l) (PyRef ?r) ?k] =>
              let i := count_S r in
              rewrite (operation_entry_new h l i k
                       : operation_entry (h ++ l) (PyRef r) k = _)
          end;
          cbn -[operation_entry]).

Ltac have_key H d k :=
  let v := fresh "v" in
  let E := fresh "E" in
  destruct (dict_get d k) as [v|] eqn:E;
  [| exfalso; apply (H k); [vm_compute; tauto | exact E]].

Lemma facade_run (self : interp) (h : list dict) (lg : list log_entry)
      (p : loc) (d : dict) (v : pyval) (b : bool) :
  nth_error h p = Some d ->
  (forall k, In k (facade_keys b) -> dict_get d k <> None) ->
  dict_get d "responsive_panels" = Some v ->
  plain_truth v = Some b ->
  exists objs ops,
    _generate_facade_operations self (PyRef p) (mkState h lg)
    = (Ok ops, mkState (h ++ objs) lg)
    /\ operation_names (h ++ objs) ops = names (facade_names b)
    /\ operation_entry (h ++ objs) (last ops PyNone) "params" = Some (PyRef p).
Proof.
  intros Hp Hkeys Hresp Htruth.
  replace (mkState h lg) with (mkState (h ++ []) lg) by (now rewrite app_nil_r).
  unfold _generate_facade_operations.
  destruct b.
  - have_key Hkeys d "story_count". have_key Hkeys d "floor_height".
    have_key Hkeys d "grid_size". have_key Hkeys d "facade_offset".
    have_key Hkeys d "panel_type". have_key Hkeys d "panel_density".
    have_key Hkeys d "material". have_key Hkeys d "structural_system".
    have_key Hkeys d "sun_priority". have_key Hkeys d "view_priority".
    have_key Hkeys d "panel_rotation_limit".
    eexists _, _. split; [repeat run; reflexivity|].
    unfold operation_names, names. cbn [map last facade_names app].
    read_ops. auto.
  - have_key Hkeys d "story_count". have_key Hkeys d "floor_height".
    have_key Hkeys d "grid_size". have_key Hkeys d "facade_offset".
    have_key Hkeys d "panel_type". have_key Hkeys d "panel_density".
    have_key Hkeys d "material". have_key Hkeys d "structural_system".
    eexists _, _. split; [repeat run; reflexivity|].
    unfold operation_names, names. cbn [map last facade_names app].
    read_ops. auto.
Qed.

Lemma heap_set_new (h l : list dict) (i : nat) (d : dict) :
  heap_set (h ++ l) (i + length h) d = (h ++ heap_set l i d)%list.
Proof.
  induction h as [|x h IH]; simpl.
  - now rewrite Nat.add_0_r.
  - rewrite Nat.add_succ_r. simpl. now rewrite IH.
Qed.

Lemma lower_char_idempotent (c : ascii) : lower_char (lower_char c) = lower_char c.
Proof.
  destruct c as [[] [] [] [] [] [] [] []]; vm_compute; reflexivity.
Qed.

Lemma lower_idempotent (s : string) : lower (lower s) = lower s.
Proof.
  induction s as [|c s IH]; simpl; [reflexivity|].
  now rewrite lower_char_idempotent, IH.
Qed.

(** A refinement of [scan_complete]: the match that runs into an occurrence
    of [w] may be a match of [w]. *)
Lemma scan_complete_self (alts : list string) (w : string) :
  found_wherever alts w = true ->
  forall pre post skip, skip <= String.length pre ->
    In w (scan alts skip (pre ++ w ++ post)).
Proof.
  unfold found_wherever. intros H.
  apply andb_true_iff in H as [H Hfirst].
  apply andb_true_iff in H as [Hne Hover].
  rewrite forallb_forall in Hover.
  induction pre as [|c pre IH]; intros post skip Hskip.
  - simpl in Hskip. assert (skip = 0) by lia. subst skip.
    destruct w as [|d w']; [discriminate|].
    change ((""%string ++ String d w' ++ post)) with (String d (w' ++ post)).
    cbn [scan].
    change (String d (w' ++ post)) with (String d w' ++ post).
    rewrite (taken_first_match _ _ _ Hfirst). now left.
  - change (String c pre ++ w ++ post) with (String c (pre ++ w ++ post)).
    cbn [scan]. destruct skip as [|k].
    + destruct (first_match alts (String c (pre ++ w ++ post))) as [a|] eqn:E.
      * apply first_match_some in E as [Ha Hs].
        specialize (Hover _ Ha). apply orb_true_iff in Hover as [Heq|Hno].
        -- apply String.eqb_eq in Heq. subst a. now left.
        -- right. apply IH.
           apply startswith_inv in Hs as [rest Hs].
           assert (Hl : String.length a <= String.length (String c pre)).
           { apply (match_stops_short a w rest (String c pre) post).
             - exact Hno.
             - now rewrite <- Hs.
             - discriminate. }
           simpl in Hl. lia.
      * apply IH. lia.
    + apply IH. simpl in Hskip. lia.
Qed.

Lemma extracted_words_spec (self : interp) (st : state) (s : string) :
  installed self (heap st) ->
  extracted_words (_extract_keywords self (PyStr s) st)
  = map PyStr (matched_words (lower s)).
Proof.
  intros Hi. apply installed_tables in Hi. destruct st as [h lg]. cbn [heap] in Hi.
  rewrite (extract_spec _ _ _ _ Hi). unfold extracted_words.
  cbn [parameter_set heap]. rewrite nth_error_last, extract_dict_entries.
  rewrite <- keyword_entries_words.
  induction (keyword_entries (lower s)) as [|[c ws] r IH]; cbn [map flat_map].
  - reflexivity.
  - cbn [entry_value fst snd]. now rewrite IH, map_app.
Qed.

Lemma possible_values_sound (s k : string) (v : pyval) :
  dict_get (resolved s) k = Some v -> In v (possible_values k).
Proof.
  unfold resolved, possible_values. rewrite dict_get_apply_words.
  intros H. apply in_or_app.
  destruct (last_writer (matched_words (lower s)) k) as [v'|] eqn:E.
  - injection H as ->. right.
    apply last_writer_some in E as (w & _ & Hw). unfold writes in Hw.
    destruct (rule_of w) as [rule|] eqn:Er; [|discriminate].
    apply rule_of_in in Er. apply in_flat_map.
    exists (w, rule). split; [exact Er|]. cbn [snd]. rewrite Hw. now left.
  - left. rewrite H. now left.
Qed.

Lemma resolved_lacks (s k : string) :
  ~ In k default_keys -> k <> "form" -> dict_get (resolved s) k = None.
Proof.
  intros Hk Hform. apply dict_get_none.
  destruct (keys_ok_resolved s) as [-> | ->]; [exact Hk|].
  intros Hin. apply in_app_or in Hin as [Hin|[Hin|[]]]; [auto | congruence].
Qed.

End StepFacts.

(* ===================================================================== *)
(** ** Further properties of the resolver                                 *)
(* ===================================================================== *)

Import StepFacts.

(** X1: resolution does not see the case of the brief: two briefs with the
    same lower-cased text give the same keywords and the same ParameterSet,
    and so does a brief and its lower-cased text. *)
Theorem resolution_ignores_case (self : interp) (st : state) (a b : string) :
  installed self (heap st) ->
  lower a = lower b ->
  _extract_keywords self (PyStr a) st = _extract_keywords self (PyStr b) st
  /\ resolve self (PyStr a) st = resolve self (PyStr b) st
  /\ resolve self (PyStr (lower a)) st = resolve self (PyStr a) st.
Proof.
  intros Hi Hab. pose proof (installed_tables _ _ Hi) as Ht.
  destruct st as [h lg]. cbn [heap] in *.
  rewrite !(extract_spec _ _ _ _ Ht), !(resolve_spec _ _ _ _ Hi).
  unfold resolved. rewrite lower_idempotent, Hab. auto.
Qed.

Lemma resolution_ignores_case_witness :
  installed boot_self (heap boot_state)
  /\ lower "HIGH-RISE in Glass" = lower "High-Rise in glass"
  /\ resolve boot_self (PyStr "HIGH-RISE in Glass") boot_state
     = resolve boot_self (PyStr "High-Rise in glass") boot_state.
Proof.
  split; [exact boot_installed|]. split; [reflexivity|].
  exact (proj1 (proj2 (resolution_ignores_case
                         boot_self boot_state "HIGH-RISE in Glass" "High-Rise in glass"
                         boot_installed eq_refl))).
Defined.

(** X2: every alternative of the patterns, except the eight a match of
    another alternative can run into, is extracted from every brief whose
    lower-cased text contains it; each of the eight is missed by some brief
    that contains it. *)
Theorem keywords_found_wherever_they_occur (self : interp) (st : state) :
  installed self (heap st) ->
  (forall w brief,
      In w all_alternatives -> ~ In w overrun_keywords ->
      contains w (lower brief) ->
      In (PyStr w) (extracted_words (_extract_keywords self (PyStr brief) st)))
  /\ (forall w, In w overrun_keywords ->
        exists brief,
          contains w (lower brief)
          /\ ~ In (PyStr w) (extracted_words (_extract_keywords self (PyStr brief) st))).
Proof.
  intros Hi. split.
  - intros w brief Hw Hnot Hc. rewrite (extracted_words_spec _ _ _ Hi).
    apply in_map. apply matched_words_in.
    unfold all_alternatives in Hw. apply in_flat_map in Hw as (g & Hg & Hwg).
    exists g. split; [exact Hg|].
    unfold group_matches. destruct Hc as (pre & post & ->).
    apply scan_complete_self; [|lia].
    unfold pattern_groups in Hg. simpl in Hg.
    repeat (destruct Hg as [<-|Hg];
            [simpl in Hwg;
             repeat (destruct Hwg as [<-|Hwg];
                     [first [ vm_compute; reflexivity
                            | exfalso; apply Hnot; vm_compute; tauto ]|]);
             contradiction |]).
    contradiction.
  - intros w Hw.
    assert (Hmiss : forall brief,
               containsb w (lower brief) = true ->
               existsb (String.eqb w) (matched_words (lower brief)) = false ->
               exists brief',
                 contains w (lower brief')
                 /\ ~ In (PyStr w)
                      (extracted_words (_extract_keywords self (PyStr brief') st))).
    { intros brief Hc Hm. exists brief. split; [now apply containsb_spec|].
      rewrite (extracted_words_spec _ _ _ Hi). intros Hin.
      apply in_map_iff in Hin as (x & [= ->] & Hin).
      assert (existsb (String.eqb w) (matched_words (lower brief)) = true)
        by (apply existsb_exists; exists w; split; [exact Hin | apply String.eqb_refl]).
      congruence. }
    unfold overrun_keywords in Hw. simpl in Hw.
    destruct Hw as [<-|[<-|[<-|[<-|[<-|[<-|[<-|[<-|[]]]]]]]]].
    + apply (Hmiss "louvresponsive"); vm_compute; reflexivity.
    + apply (Hmiss "louvrestatic"); vm_compute; reflexivity.
    + apply (Hmiss "louvresunshade"); vm_compute; reflexivity.
    + apply (Hmiss "daylightemperature"); vm_compute; reflexivity.
    + apply (Hmiss "framing views"); vm_compute; reflexivity.
    + apply (Hmiss "aluminumetal"); vm_compute; reflexivity.
    + apply (Hmiss "metaluminum"); vm_compute; reflexivity.
    + apply (Hmiss "porousparse"); vm_compute; reflexivity.
Qed.

Lemma keywords_found_wherever_they_occur_witness :
  installed boot_self (heap boot_state)
  /\ contains "transparent" (lower "Transparentransparent skin")
  /\ In (PyStr "transparent")
        (extracted_words
           (_extract_keywords boot_self (PyStr "Transparentransparent skin") boot_state)).
Proof.
  assert (Hc : contains "transparent" (lower "Transparentransparent skin"))
    by (apply containsb_spec; vm_compute; reflexivity).
  split; [exact boot_installed|]. split; [exact Hc|].
  apply (proj1 (keywords_found_wherever_they_occur boot_self boot_state boot_installed)).
  - vm_compute. tauto.
  - vm_compute. intros H.
    repeat (destruct H as [H|H]; [discriminate H|]). exact H.
  - exact Hc.
Defined.

(** X3: whatever the brief, the numeric parameters stay within fixed bounds:
    [story_count] between 5 and 40, [panel_rotation_limit] between 0 and 90
    degrees, [panel_density], [view_priority] and [sun_priority] within the
    range 0.0-1.0 the table documents, [grid_size] between 1.0 and 1.2; and
    [responsive_panels] is a boolean. *)
Theorem parameters_stay_in_range (self : interp) (st : state) (brief : string) :
  installed self (heap st) ->
  (exists n, lookup_param (resolve self (PyStr brief) st) "story_count" = Some (PyInt n)
             /\ (5 <= n <= 40)%Z)
  /\ (exists n, lookup_param (resolve self (PyStr brief) st) "panel_rotation_limit"
                = Some (PyInt n)
                /\ (0 <= n <= 90)%Z)
  /\ (exists q, lookup_param (resolve self (PyStr brief) st) "panel_density"
                = Some (PyFloat q)
                /\ (0.5 <= q)%Q /\ (q <= 0.9)%Q)
  /\ (exists q, lookup_param (resolve self (PyStr brief) st) "view_priority"
                = Some (PyFloat q)
                /\ (0.5 <= q)%Q /\ (q <= 0.95)%Q)
  /\ (exists q, lookup_param (resolve self (PyStr brief) st) "sun_priority"
                = Some (PyFloat q)
                /\ (0.8 <= q)%Q /\ (q <= 0.9)%Q)
  /\ (exists q, lookup_param (resolve self (PyStr brief) st) "grid_size"
                = Some (PyFloat q)
                /\ (1.0 <= q)%Q /\ (q <= 1.2)%Q)
  /\ (exists b, lookup_param (resolve self (PyStr brief) st) "responsive_panels"
                = Some (PyBool b)).
Proof.
  intros Hi. unfold lookup_param. rewrite (parameter_set_resolve _ _ _ Hi).
  assert (Hval : forall k, In k default_keys ->
                   exists v, dict_get (resolved brief) k = Some v
                             /\ In v (possible_values k)).
  { intros k Hk. pose proof (resolved_has_default_keys brief k Hk) as Hne.
    destruct (dict_get (resolved brief) k) as [v|] eqn:E; [|congruence].
    exists v. split; [reflexivity | now apply possible_values_sound in E]. }
  repeat split.
  - destruct (Hval "story_count") as (v & -> & Hin); [vm_compute; tauto|].
    vm_compute in Hin.
    repeat (destruct Hin as [<-|Hin]; [eexists; split; [reflexivity | lia]|]).
    contradiction.
  - destruct (Hval "panel_rotation_limit") as (v & -> & Hin); [vm_compute; tauto|].
    vm_compute in Hin.
    repeat (destruct Hin as [<-|Hin]; [eexists; split; [reflexivity | lia]|]).
    contradiction.
  - destruct (Hval "panel_density") as (v & -> & Hin); [vm_compute; tauto|].
    vm_compute in Hin.
    repeat (destruct Hin as [<-|Hin];
            [eexists; split; [reflexivity | split; unfold Qle; simpl; lia]|]).
    contradiction.
  - destruct (Hval "view_priority") as (v & -> & Hin); [vm_compute; tauto|].
    vm_compute in Hin.
    repeat (destruct Hin as [<-|Hin];
            [eexists; split; [reflexivity | split; unfold Qle; simpl; lia]|]).
    contradiction.
  - destruct (Hval "sun_priority") as (v & -> & Hin); [vm_compute; tauto|].
    vm_compute in Hin.
    repeat (destruct Hin as [<-|Hin];
            [eexists; split; [reflexivity | split; unfold Qle; simpl; lia]|]).
    contradiction.
  - destruct (Hval "grid_size") as (v & -> & Hin); [vm_compute; tauto|].
    vm_compute in Hin.
    repeat (destruct Hin as [<-|Hin];
            [eexists; split; [reflexivity | split; unfold Qle; simpl; lia]|]).
    contradiction.
  - destruct (Hval "responsive_panels") as (v & -> & Hin); [vm_compute; tauto|].
    vm_compute in Hin.
    repeat (destruct Hin as [<-|Hin]; [eexists; reflexivity|]).
    contradiction.
Qed.

Lemma parameters_stay_in_range_witness :
  installed boot_self (heap boot_state)
  /\ exists n,
       lookup_param (resolve boot_self (PyStr "sparse kinetic tower, framing views")
                             boot_state) "story_count" = Some (PyInt n)
       /\ (5 <= n <= 40)%Z.
Proof.
  split; [exact boot_installed|].
  exact (proj1 (parameters_stay_in_range
                  boot_self boot_state "sparse kinetic tower, framing views"
                  boot_installed)).
Defined.

(** X4: the ParameterSet the resolver returns is an object of its own.  A
    caller that writes to it changes neither the tables of the interpreter
    nor what a later resolution returns. *)
Theorem returned_parameters_are_a_copy (self : interp) (st : state)
        (brief key later : string) (v : pyval) :
  installed self (heap st) ->
  exists p st1 st2,
    resolve self (PyStr brief) st = (Ok (PyRef p), st1)
    /\ setitem (PyRef p) key v st1 = (Ok tt, st2)
    /\ lookup_param (Ok (PyRef p), st2) key = Some v
    /\ tables_in self (heap st2)
    /\ (forall l, l < length (heap st) -> nth_error (heap st2) l = nth_error (heap st) l)
    /\ parameter_set (resolve self (PyStr later) st2)
       = parameter_set (resolve self (PyStr later) st).
Proof.
  intros Hi. destruct st as [h lg]. cbn [heap] in *.
  exists (S (length h)),
         (mkState (h ++ [extract_dict (lower brief); resolved brief]) lg),
         (mkState (h ++ [extract_dict (lower brief); dict_set (resolved brief) key v]) lg).
  assert (Hi2 : installed self
                  (h ++ [extract_dict (lower brief); dict_set (resolved brief) key v]))
    by now apply installed_ext.
  split; [apply (resolve_spec _ _ _ _ Hi)|].
  split.
  { unfold setitem, bind, deref. cbn [heap log].
    rewrite (nth_error_new h _ 1). cbn [nth_error heap log].
    rewrite (heap_set_new h _ 1 _ : heap_set (h ++ _) (S (length h)) _ = _).
    reflexivity. }
  split.
  { unfold lookup_param, parameter_set. cbn [heap].
    rewrite (nth_error_new h _ 1). cbn [nth_error].
    now rewrite dict_get_set, String.eqb_refl. }
  split; [now apply installed_tables|].
  split; [intros l Hl; now apply frame|].
  now rewrite (parameter_set_resolve self (mkState _ lg) later Hi2),
              (parameter_set_resolve self (mkState h lg) later Hi).
Qed.

Lemma returned_parameters_are_a_copy_witness :
  installed boot_self (heap boot_state)
  /\ exists p st1 st2,
       resolve boot_self (PyStr "a tower") boot_state = (Ok (PyRef p), st1)
       /\ setitem (PyRef p) "story_count" (PyInt 999) st1 = (Ok tt, st2)
       /\ lookup_param (resolve boot_self (PyStr "a tower") st2) "story_count"
          = Some (PyInt 40).
Proof.
  split; [exact boot_installed|].
  destruct (returned_parameters_are_a_copy
              boot_self boot_state "a tower" "story_count" "a tower" (PyInt 999)
              boot_installed)
    as (p & st1 & st2 & Hres & Hset & _ & _ & _ & Hsame).
  exists p, st1, st2. split; [exact Hres|]. split; [exact Hset|].
  unfold lookup_param. rewrite Hsame. vm_compute. reflexivity.
Defined.

(** X5: [interpret_brief] never raises.  Whatever value it is given, in
    whatever state, and whatever the generators do, it returns a record, and
    the record carries the brief it was given. *)
Theorem interpret_brief_never_raises
        (floor_plan urban landscape structure parametric_form
           : interp -> pyval -> M (list pyval))
        (rhino_code grasshopper_code : interp -> list pyval -> M string)
        (self : interp) (brief : pyval) (st : state) :
  exists r st',
    interpret_brief floor_plan urban landscape structure parametric_form
                    rhino_code grasshopper_code self brief st
    = (Ok r, st')
    /\ match r with
       | Interpreted b _ _ _ _ _ => b = brief
       | ErrorRecord _ b => b = brief
       end.
Proof.
  unfold interpret_brief, try_except.
  unfold bind at 1.
  destruct (resolve_logged self brief st) as [[[kw params]|e] st1].
  - unfold bind at 1.
    destruct (generate floor_plan urban landscape structure parametric_form
                       rhino_code grasshopper_code self params st1)
      as [[[[ops rhino] gh]|e] st2].
    + eexists _, _. split; reflexivity.
    + eexists _, _. split; reflexivity.
  - eexists _, _. split; reflexivity.
Qed.

(* ===================================================================== *)
(** ** Properties of the operation generators                             *)
(* ===================================================================== *)

Lemma dict_getd_ext (h l : list dict) (lg : list log_entry) (p : loc) (d : dict)
      (k : string) (dflt : pyval) :
  nth_error h p = Some d ->
  dict_getd (PyRef p) k dflt (mkState (h ++ l) lg)
  = (Ok (match dict_get d k with Some v => v | None => dflt end),
     mkState (h ++ l) lg).
Proof.
  intros Hp. unfold dict_getd, bind, deref. cbn [heap].
  rewrite (nth_error_before _ _ _ _ Hp).
  destruct (dict_get d k); reflexivity.
Qed.

Lemma start_empty (h : list dict) (lg : list log_entry) :
  mkState h lg = mkState (h ++ []) lg.
Proof. now rewrite app_nil_r. Qed.

(** [step] is [run] with the statements of [_generate_operations]. *)
Ltac step :=
  cbv beta iota;
  unfold bind at 1;
  first
    [ erewrite getitem_ext by eassumption
    | erewrite getitem_missing by eassumption
    | erewrite dict_getd_ext by eassumption
    | rewrite new_operation_ext
    | rewrite new_dict_ext
    | erewrite py_truth_plain by eassumption
    | unfold ret at 1
    | idtac ];
  cbn [app length Nat.add].

Section OperationLists.

Variable floor_plan urban landscape structure parametric_form
  : interp -> pyval -> M (list pyval).

Let operations : interp -> pyval -> M (list pyval) :=
  _generate_operations floor_plan urban landscape structure parametric_form.

(** X6: [_generate_operations] needs ["grid_size"], ["material"] and
    ["color_scheme"] in the parameters: it raises [KeyError] for the first of
    them that is missing, before it has created an operation. *)
Theorem generate_operations_needs_three_keys (self : interp) (st : state)
        (p : loc) (d : dict) (k : string) :
  nth_error (heap st) p = Some d ->
  first_missing d ["grid_size"; "material"; "color_scheme"] = Some k ->
  operations self (PyRef p) st = (Raise (KeyError k), st).
Proof.
  intros Hp Hk. destruct st as [h lg]. cbn [heap] in Hp.
  rewrite (start_empty h lg).
  unfold operations, _generate_operations.
  unfold first_missing, dict_mem in Hk. cbn [find] in Hk.
  destruct (dict_get d "grid_size") as [g|] eqn:Eg; cbn [negb] in Hk.
  - destruct (dict_get d "material") as [m|] eqn:Em; cbn [negb] in Hk.
    + destruct (dict_get d "color_scheme") as [c|] eqn:Ec; cbn [negb] in Hk;
        [discriminate|].
      injection Hk as <-. do 4 step. reflexivity.
    + injection Hk as <-. do 3 step. reflexivity.
  - injection Hk as <-. do 2 step. reflexivity.
Qed.

(** X7: for a design domain that is none of the six names the function
    knows, the list holds two operations, [initialize_design] and
    [finalize_design], both recording the domain as given; no generator is
    called. *)
Theorem unknown_domain_gives_two_operations (self : interp) (st : state)
        (p : loc) (d : dict) (domain : pyval) :
  nth_error (heap st) p = Some d ->
  first_missing d ["grid_size"; "material"; "color_scheme"] = None ->
  dict_get d "design_domain" = Some domain ->
  (forall n, In n known_domains -> py_eq_str domain n = false) ->
  exists ops st',
    operations self (PyRef p) st = (Ok ops, st')
    /\ operation_names (heap st') ops = names ["initialize_design"; "finalize_design"]
    /\ map (fun op => operation_param (heap st') op "design_domain") ops
       = [Some domain; Some domain]
    /\ length (heap st') = length (heap st) + 4
    /\ (forall l, l < length (heap st) -> nth_error (heap st') l = nth_error (heap st) l).
Proof.
  intros Hp Hk Hd Hn. destruct st as [h lg]. cbn [heap] in *.
  rewrite (start_empty h lg).
  unfold operations, _generate_operations.
  unfold first_missing, dict_mem in Hk. cbn [find] in Hk.
  destruct (dict_get d "grid_size") as [g|] eqn:Eg; [|discriminate].
  destruct (dict_get d "material") as [m|] eqn:Em; [|discriminate].
  destruct (dict_get d "color_scheme") as [c|] eqn:Ec; [|discriminate].
  do 6 step. rewrite Hd.
  rewrite !Hn by (vm_compute; tauto).
  do 3 step.
  eexists _, _. split; [reflexivity|]. cbn [heap].
  split; [unfold operation_names, names; cbn [map]; read_ops; reflexivity|].
  split; [unfold operation_param; cbn [map]; read_ops; reflexivity|].
  split; [rewrite length_app; reflexivity|].
  intros l Hl. now apply frame.
Qed.

End OperationLists.

Lemma generate_operations_needs_three_keys_witness :
  exists st p d,
    nth_error (heap st) p = Some d
    /\ first_missing d ["grid_size"; "material"; "color_scheme"] = Some "material"
    /\ _generate_operations no_operations no_operations no_operations no_operations
                            no_operations boot_self (PyRef p) st
       = (Raise (KeyError "material"), st).
Proof.
  exists (mkState [[("grid_size", PyFloat 1.0%Q); ("color_scheme", PyStr "warm")]] []),
         0, [("grid_size", PyFloat 1.0%Q); ("color_scheme", PyStr "warm")].
  split; [reflexivity|]. split; [reflexivity|].
  exact (generate_operations_needs_three_keys
           no_operations no_operations no_operations no_operations no_operations
           boot_self
           (mkState [[("grid_size", PyFloat 1.0%Q); ("color_scheme", PyStr "warm")]] [])
           0 [("grid_size", PyFloat 1.0%Q); ("color_scheme", PyStr "warm")]
           "material" eq_refl eq_refl).
Defined.

Lemma unknown_domain_gives_two_operations_witness :
  exists st p ops st',
    nth_error (heap st) p
    = Some [("grid_size", PyFloat 1.0%Q); ("material", PyStr "glass");
            ("color_scheme", PyStr "warm"); ("design_domain", PyStr "floor layout")]
    /\ _generate_operations no_operations no_operations no_operations no_operations
                            no_operations boot_self (PyRef p) st
       = (Ok ops, st')
    /\ length ops = 2.
Proof.
  exists (mkState [[("grid_size", PyFloat 1.0%Q); ("material", PyStr "glass");
                    ("color_scheme", PyStr "warm");
                    ("design_domain", PyStr "floor layout")]] []), 0.
  destruct (unknown_domain_gives_two_operations
              no_operations no_operations no_operations no_operations no_operations
              boot_self
              (mkState [[("grid_size", PyFloat 1.0%Q); ("material", PyStr "glass");
                         ("color_scheme", PyStr "warm");
                         ("design_domain", PyStr "floor layout")]] [])
              0 [("grid_size", PyFloat 1.0%Q); ("material", PyStr "glass");
                 ("color_scheme", PyStr "warm");
                 ("design_domain", PyStr "floor layout")]
              (PyStr "floor layout") eq_refl eq_refl eq_refl)
    as (ops & st' & Hrun & Hnames & _).
  - intros n Hn. vm_compute in Hn.
    repeat (destruct Hn as [<-|Hn]; [reflexivity|]). contradiction.
  - exists ops, st'. split; [reflexivity|]. split; [exact Hrun|].
    apply (f_equal (@length _)) in Hnames.
    unfold operation_names, names in Hnames. rewrite !length_map in Hnames.
    exact Hnames.
Defined.

(** [walk] is [step] for generators that branch on a test kept among the
    hypotheses. *)
Ltac walk :=
  cbv beta iota;
  first
    [ match goal with
      | H : ?c = _ |- context [if ?c then _ else _] => rewrite H
      end
    | erewrite getitem_ext by eassumption
    | erewrite getitem_missing by eassumption
    | erewrite dict_getd_ext by eassumption
    | rewrite new_operation_ext
    | rewrite new_dict_ext
    | erewrite py_truth_plain by eassumption
    | unfold ret at 1
    | unfold bind at 1 ];
  cbn [app length Nat.add].

(** X8: given the keys it reads, [_generate_facade_operations] lists six
    operations when [responsive_panels] is true and three when it is not;
    the last operation holds the ParameterSet itself, not a copy; nothing
    that was in the heap is changed. *)
Theorem facade_operations_follow_responsive_panels (self : interp) (st : state)
        (p : loc) (d : dict) (v : pyval) (b : bool) :
  nth_error (heap st) p = Some d ->
  (forall k, In k (facade_keys b) -> dict_get d k <> None) ->
  dict_get d "responsive_panels" = Some v ->
  plain_truth v = Some b ->
  exists ops st',
    _generate_facade_operations self (PyRef p) st = (Ok ops, st')
    /\ operation_names (heap st') ops = names (facade_names b)
    /\ operation_entry (heap st') (last ops PyNone) "params" = Some (PyRef p)
    /\ (forall l, l < length (heap st) -> nth_error (heap st') l = nth_error (heap st) l)
    /\ log st' = log st.
Proof.
  intros Hp Hkeys Hresp Htruth. destruct st as [h lg]. cbn [heap log] in *.
  destruct (facade_run self h lg p d v b Hp Hkeys Hresp Htruth)
    as (objs & ops & Hrun & Hnames & Hlast).
  exists ops, (mkState (h ++ objs) lg). cbn [heap log].
  repeat split; auto. intros l Hl. now apply frame.
Qed.

Lemma facade_operations_follow_responsive_panels_witness :
  exists ops st',
    _generate_facade_operations boot_self (PyRef 0) boot_state = (Ok ops, st')
    /\ operation_names (heap st') ops = names (facade_names true).
Proof.
  destruct (facade_operations_follow_responsive_panels
              boot_self boot_state 0 default_params_literal (PyBool true) true
              eq_refl)
    as (ops & st' & Hrun & Hnames & _).
  - intros k Hk. vm_compute in Hk.
    repeat (destruct Hk as [<-|Hk]; [discriminate|]). contradiction.
  - reflexivity.
  - reflexivity.
  - exists ops, st'. split; [exact Hrun | exact Hnames].
Defined.

(** X9: the facade generator accepts the ParameterSet of every brief: all
    keys it reads are there, and [responsive_panels] is a boolean that
    decides between six and three operations. *)
Theorem every_brief_has_facade_operations (self : interp) (st : state) (brief : string) :
  installed self (heap st) ->
  exists p st1 b ops st2,
    resolve self (PyStr brief) st = (Ok (PyRef p), st1)
    /\ lookup_param (Ok (PyRef p), st1) "responsive_panels" = Some (PyBool b)
    /\ _generate_facade_operations self (PyRef p) st1 = (Ok ops, st2)
    /\ operation_names (heap st2) ops = names (facade_names b)
    /\ length ops = (if b then 6 else 3).
Proof.
  intros Hi. destruct st as [h lg]. cbn [heap] in Hi.
  assert (Hb : exists b, dict_get (resolved brief) "responsive_panels" = Some (PyBool b)).
  { pose proof (resolved_has_default_keys brief "responsive_panels") as Hne.
    destruct (dict_get (resolved brief) "responsive_panels") as [v|] eqn:E;
      [|exfalso; apply Hne; [vm_compute; tauto | reflexivity]].
    apply possible_values_sound in E. vm_compute in E.
    repeat (destruct E as [<-|E]; [eexists; reflexivity|]). contradiction. }
  destruct Hb as [b Hb].
  assert (Hp : nth_error (h ++ [extract_dict (lower brief); resolved brief])
                         (S (length h)) = Some (resolved brief))
    by (rewrite (nth_error_new h _ 1); reflexivity).
  destruct (facade_run self _ lg _ _ (PyBool b) b Hp) as (objs & ops & Hrun & Hnames & _).
  - intros k Hk. apply resolved_has_default_keys.
    destruct b; vm_compute in Hk; vm_compute;
      repeat (destruct Hk as [<-|Hk]; [tauto|]); contradiction.
  - exact Hb.
  - reflexivity.
  - exists (S (length h)),
           (mkState (h ++ [extract_dict (lower brief); resolved brief]) lg),
           b, ops, (mkState ((h ++ [extract_dict (lower brief); resolved brief]) ++ objs) lg).
    split; [apply (resolve_spec _ _ _ _ Hi)|].
    split; [unfold lookup_param, parameter_set; cbn [heap]; now rewrite Hp|].
    split; [exact Hrun|]. split; [exact Hnames|].
    apply (f_equal (@length _)) in Hnames.
    unfold operation_names, names in Hnames. rewrite !length_map in Hnames.
    rewrite Hnames. now destruct b.
Qed.

Lemma every_brief_has_facade_operations_witness :
  installed boot_self (heap boot_state)
  /\ exists p st1 ops st2,
       resolve boot_self (PyStr "a static concrete facade") boot_state
       = (Ok (PyRef p), st1)
       /\ _generate_facade_operations boot_self (PyRef p) st1 = (Ok ops, st2)
       /\ length ops = 3.
Proof.
  split; [exact boot_installed|].
  destruct (every_brief_has_facade_operations
              boot_self boot_state "a static concrete facade" boot_installed)
    as (p & st1 & b & ops & st2 & Hres & Hb & Hrun & _ & Hlen).
  exists p, st1, ops, st2. split; [exact Hres|]. split; [exact Hrun|].
  vm_compute in Hres. injection Hres as <- <-.
  vm_compute in Hb. injection Hb as <-. exact Hlen.
Defined.

(** X10: the generators of the five other domains reject the ParameterSet
    of every brief: each raises [KeyError] for the first key it reads, which
    no ParameterSet has. *)
Theorem other_domains_reject_every_brief (self : interp) (st : state) (brief : string)
        (py_mul : pyval -> pyval -> M pyval) :
  installed self (heap st) ->
  exists p st1,
    resolve self (PyStr brief) st = (Ok (PyRef p), st1)
    /\ fst (Domains._generate_floor_plan_operations self (PyRef p) st1)
       = Raise (KeyError "floor_area")
    /\ fst (Domains._generate_urban_operations py_mul self (PyRef p) st1)
       = Raise (KeyError "block_size")
    /\ fst (Domains._generate_landscape_operations self (PyRef p) st1)
       = Raise (KeyError "terrain_complexity")
    /\ fst (Domains._generate_structure_operations self (PyRef p) st1)
       = Raise (KeyError "structural_grid")
    /\ fst (Domains._generate_parametric_form_operations self (PyRef p) st1)
       = Raise (KeyError "subdivision_level").
Proof.
  intros Hi. destruct st as [h lg]. cbn [heap] in Hi.
  exists (S (length h)), (mkState (h ++ [extract_dict (lower brief); resolved brief]) lg).
  split; [apply (resolve_spec _ _ _ _ Hi)|].
  assert (Hp : nth_error (h ++ [extract_dict (lower brief); resolved brief])
                         (S (length h)) = Some (resolved brief))
    by (rewrite (nth_error_new h _ 1); reflexivity).
  assert (Hlack : forall k, existsb (String.eqb k) ("form" :: default_keys) = false ->
                            dict_get (resolved brief) k = None).
  { intros k Hk. apply resolved_lacks.
    - intros Hin. assert (existsb (String.eqb k) ("form" :: default_keys) = true)
        by (apply existsb_exists; exists k; split;
            [now right | apply String.eqb_refl]).
      congruence.
    - intros ->. discriminate Hk. }
  pose proof (Hlack "floor_area" eq_refl) as H1.
  pose proof (Hlack "block_size" eq_refl) as H2.
  pose proof (Hlack "terrain_complexity" eq_refl) as H3.
  pose proof (Hlack "structural_grid" eq_refl) as H4.
  pose proof (Hlack "subdivision_level" eq_refl) as H5.
  rewrite (start_empty (h ++ _) lg).
  repeat split.
  - unfold Domains._generate_floor_plan_operations. repeat walk. reflexivity.
  - unfold Domains._generate_urban_operations. repeat walk. reflexivity.
  - unfold Domains._generate_landscape_operations. repeat walk. reflexivity.
  - unfold Domains._generate_structure_operations. repeat walk. reflexivity.
  - unfold Domains._generate_parametric_form_operations. repeat walk. reflexivity.
Qed.

Lemma other_domains_reject_every_brief_witness :
  installed boot_self (heap boot_state)
  /\ exists p st1,
       resolve boot_self (PyStr "a modular high-rise") boot_state = (Ok (PyRef p), st1)
       /\ fst (Domains._generate_structure_operations boot_self (PyRef p) st1)
          = Raise (KeyError "structural_grid").
Proof.
  split; [exact boot_installed|].
  destruct (other_domains_reject_every_brief
              boot_self boot_state "a modular high-rise" (fun _ _ => ret PyNone)
              boot_installed)
    as (p & st1 & Hres & _ & _ & _ & Hs & _).
  exists p, st1. split; [exact Hres | exact Hs].
Defined.

(** X11: given the six keys it reads, [_generate_floor_plan_operations]
    lists [create_partitions] exactly when [open_plan] is false: five
    operations then, four for an open plan. *)
Theorem floor_plan_partitions_follow_open_plan (self : interp) (st : state)
        (p : loc) (d : dict) (v : pyval) (b : bool) :
  nth_error (heap st) p = Some d ->
  (forall k, In k floor_plan_keys -> dict_get d k <> None) ->
  dict_get d "open_plan" = Some v ->
  plain_truth v = Some b ->
  exists ops st',
    Domains._generate_floor_plan_operations self (PyRef p) st = (Ok ops, st')
    /\ operation_names (heap st') ops = names (floor_plan_names b)
    /\ (forall l, l < length (heap st) -> nth_error (heap st') l = nth_error (heap st) l)
    /\ log st' = log st.
Proof.
  intros Hp Hkeys Hopen Htruth. destruct st as [h lg]. cbn [heap log] in *.
  rewrite (start_empty h lg).
  unfold Domains._generate_floor_plan_operations.
  have_key Hkeys d "floor_area". have_key Hkeys d "program_type".
  have_key Hkeys d "room_count". have_key Hkeys d "corridor_width".
  have_key Hkeys d "room_division".
  destruct b.
  - eexists _, _. split; [repeat walk; reflexivity|]. cbn [heap log].
    split; [unfold operation_names, names; cbn [map floor_plan_names app];
            read_ops; reflexivity|].
    split; [intros l Hl; now apply frame | reflexivity].
  - eexists _, _. split; [repeat walk; reflexivity|]. cbn [heap log].
    split; [unfold operation_names, names; cbn [map floor_plan_names app];
            read_ops; reflexivity|].
    split; [intros l Hl; now apply frame | reflexivity].
Qed.

Lemma floor_plan_partitions_follow_open_plan_witness :
  exists d ops st',
    dict_get d "open_plan" = Some (PyBool false)
    /\ Domains._generate_floor_plan_operations boot_self (PyRef 0) (mkState [d] [])
       = (Ok ops, st')
    /\ operation_names (heap st') ops = names (floor_plan_names false).
Proof.
  exists [("floor_area", PyInt 80); ("program_type", PyStr "apartment");
          ("room_count", PyInt 3); ("open_plan", PyBool false);
          ("corridor_width", PyFloat 1.2%Q); ("room_division", PyStr "walls")].
  destruct (floor_plan_partitions_follow_open_plan
              boot_self
              (mkState [[("floor_area", PyInt 80); ("program_type", PyStr "apartment");
                         ("room_count", PyInt 3); ("open_plan", PyBool false);
                         ("corridor_width", PyFloat 1.2%Q);
                         ("room_division", PyStr "walls")]] [])
              0 _ (PyBool false) false eq_refl)
    as (ops & st' & Hrun & Hnames & _).
  - intros k Hk. vm_compute in Hk.
    repeat (destruct Hk as [<-|Hk]; [discriminate|]). contradiction.
  - reflexivity.
  - reflexivity.
  - exists ops, st'. split; [reflexivity|]. split; [exact Hrun | exact Hnames].
Defined.

(** X12: given the five keys it reads, [_generate_landscape_operations]
    lists [add_water_features] exactly when [water_features] is true. *)
Theorem landscape_water_follows_water_features (self : interp) (st : state)
        (p : loc) (d : dict) (v : pyval) (b : bool) :
  nth_error (heap st) p = Some d ->
  (forall k, In k landscape_keys -> dict_get d k <> None) ->
  dict_get d "water_features" = Some v ->
  plain_truth v = Some b ->
  exists ops st',
    Domains._generate_landscape_operations self (PyRef p) st = (Ok ops, st')
    /\ operation_names (heap st') ops = names (landscape_names b)
    /\ (forall l, l < length (heap st) -> nth_error (heap st') l = nth_error (heap st) l)
    /\ log st' = log st.
Proof.
  intros Hp Hkeys Hwater Htruth. destruct st as [h lg]. cbn [heap log] in *.
  rewrite (start_empty h lg).
  unfold Domains._generate_landscape_operations.
  have_key Hkeys d "terrain_complexity". have_key Hkeys d "topography_variation".
  have_key Hkeys d "path_complexity". have_key Hkeys d "vegetation_density".
  destruct b.
  - eexists _, _. split; [repeat walk; reflexivity|]. cbn [heap log].
    split; [unfold operation_names, names; cbn [map landscape_names app];
            read_ops; reflexivity|].
    split; [intros l Hl; now apply frame | reflexivity].
  - eexists _, _. split; [repeat walk; reflexivity|]. cbn [heap log].
    split; [unfold operation_names, names; cbn [map landscape_names app];
            read_ops; reflexivity|].
    split; [intros l Hl; now apply frame | reflexivity].
Qed.

Lemma landscape_water_follows_water_features_witness :
  exists d ops st',
    dict_get d "water_features" = Some (PyBool true)
    /\ Domains._generate_landscape_operations boot_self (PyRef 0) (mkState [d] [])
       = (Ok ops, st')
    /\ operation_names (heap st') ops = names (landscape_names true).
Proof.
  exists [("terrain_complexity", PyFloat 0.5%Q); ("topography_variation", PyFloat 2.0%Q);
          ("path_complexity", PyFloat 0.3%Q); ("vegetation_density", PyFloat 0.6%Q);
          ("water_features", PyBool true)].
  destruct (landscape_water_follows_water_features
              boot_self
              (mkState [[("terrain_complexity", PyFloat 0.5%Q);
                         ("topography_variation", PyFloat 2.0%Q);
                         ("path_complexity", PyFloat 0.3%Q);
                         ("vegetation_density", PyFloat 0.6%Q);
                         ("water_features", PyBool true)]] [])
              0 _ (PyBool true) true eq_refl)
    as (ops & st' & Hrun & Hnames & _).
  - intros k Hk. vm_compute in Hk.
    repeat (destruct Hk as [<-|Hk]; [discriminate|]). contradiction.
  - reflexivity.
  - reflexivity.
  - exists ops, st'. split; [reflexivity|]. split; [exact Hrun | exact Hnames].
Defined.

(** X13: given the five keys it reads, [_generate_parametric_form_operations]
    lists [apply_symmetry] exactly when [symmetry] differs from "none"; a
    value that is not a string counts as different. *)
Theorem parametric_form_symmetry_follows_symmetry (self : interp) (st : state)
        (p : loc) (d : dict) (v : pyval) :
  nth_error (heap st) p = Some d ->
  (forall k, In k parametric_form_keys -> dict_get d k <> None) ->
  dict_get d "symmetry" = Some v ->
  exists ops st',
    Domains._generate_parametric_form_operations self (PyRef p) st = (Ok ops, st')
    /\ operation_names (heap st') ops
       = names (parametric_form_names (Domains.py_ne_str v "none"))
    /\ (forall l, l < length (heap st) -> nth_error (heap st') l = nth_error (heap st) l)
    /\ log st' = log st.
Proof.
  intros Hp Hkeys Hsym. destruct st as [h lg]. cbn [heap log] in *.
  rewrite (start_empty h lg).
  unfold Domains._generate_parametric_form_operations.
  have_key Hkeys d "subdivision_level". have_key Hkeys d "attractor_points".
  have_key Hkeys d "iterations". have_key Hkeys d "complexity".
  destruct (Domains.py_ne_str v "none") eqn:Hne.
  - eexists _, _. split; [repeat walk; reflexivity|]. cbn [heap log].
    split; [unfold operation_names, names; cbn [map parametric_form_names app];
            read_ops; reflexivity|].
    split; [intros l Hl; now apply frame | reflexivity].
  - eexists _, _. split; [repeat walk; reflexivity|]. cbn [heap log].
    split; [unfold operation_names, names; cbn [map parametric_form_names app];
            read_ops; reflexivity|].
    split; [intros l Hl; now apply frame | reflexivity].
Qed.

Lemma parametric_form_symmetry_follows_symmetry_witness :
  exists d ops st',
    dict_get d "symmetry" = Some (PyStr "none")
    /\ Domains._generate_parametric_form_operations boot_self (PyRef 0) (mkState [d] [])
       = (Ok ops, st')
    /\ length ops = 4.
Proof.
  exists [("subdivision_level", PyInt 2); ("attractor_points", PyInt 3);
          ("iterations", PyInt 5); ("complexity", PyFloat 0.5%Q);
          ("symmetry", PyStr "none")].
  destruct (parametric_form_symmetry_follows_symmetry
              boot_self
              (mkState [[("subdivision_level", PyInt 2); ("attractor_points", PyInt 3);
                         ("iterations", PyInt 5); ("complexity", PyFloat 0.5%Q);
                         ("symmetry", PyStr "none")]] [])
              0 _ (PyStr "none") eq_refl)
    as (ops & st' & Hrun & Hnames & _).
  - intros k Hk. vm_compute in Hk.
    repeat (destruct Hk as [<-|Hk]; [discriminate|]). contradiction.
  - reflexivity.
  - exists ops, st'. split; [reflexivity|]. split; [exact Hrun|].
    apply (f_equal (@length _)) in Hnames.
    unfold operation_names, names in Hnames. rewrite !length_map in Hnames.
    exact Hnames.
Defined.

Section FacadeDomain.

Variable floor_plan urban landscape structure parametric_form
  : interp -> pyval -> M (list pyval).

(** X14: for the facade domain, named or left out, and parameters with the
    three keys of the header and the keys of the facade generator,
    [_generate_operations] returns [initialize_design], the facade
    operations and [finalize_design], in this order; the first and the last
    operation both record the domain "facade"; nothing that was in the heap
    is changed. *)
Theorem facade_operations_are_framed (self : interp) (st : state)
        (p : loc) (d : dict) (v : pyval) (b : bool) :
  nth_error (heap st) p = Some d ->
  first_missing d ["grid_size"; "material"; "color_scheme"] = None ->
  dict_get d "design_domain" = None \/ dict_get d "design_domain" = Some (PyStr "facade") ->
  (forall k, In k (facade_keys b) -> dict_get d k <> None) ->
  dict_get d "responsive_panels" = Some v ->
  plain_truth v = Some b ->
  exists ops st',
    _generate_operations floor_plan urban landscape structure parametric_form
                         self (PyRef p) st
    = (Ok ops, st')
    /\ operation_names (heap st') ops
       = names ("initialize_design" :: facade_names b ++ ["finalize_design"])%list
    /\ operation_param (heap st') (hd PyNone ops) "design_domain" = Some (PyStr "facade")
    /\ operation_param (heap st') (last ops PyNone) "design_domain"
       = Some (PyStr "facade")
    /\ (forall l, l < length (heap st) -> nth_error (heap st') l = nth_error (heap st) l)
    /\ log st' = log st.
Proof.
  intros Hp Hk Hdom Hkeys Hresp Htruth. destruct st as [h lg]. cbn [heap log] in *.
  rewrite (start_empty h lg).
  unfold _generate_operations, _generate_facade_operations.
  unfold first_missing, dict_mem in Hk. cbn [find] in Hk.
  assert (Hcol : exists c, dict_get d "color_scheme" = Some c).
  { destruct (dict_get d "grid_size"); [|discriminate].
    destruct (dict_get d "material"); [|discriminate].
    destruct (dict_get d "color_scheme") as [c|]; [now exists c | discriminate]. }
  destruct Hcol as [c Hcol].
  have_key Hkeys d "story_count". have_key Hkeys d "floor_height".
  have_key Hkeys d "grid_size". have_key Hkeys d "facade_offset".
  have_key Hkeys d "panel_type". have_key Hkeys d "panel_density".
  have_key Hkeys d "material". have_key Hkeys d "structural_system".
  assert (Hfacade : py_eq_str (match dict_get d "design_domain" with
                               | Some v' => v'
                               | None => PyStr "facade"
                               end) "facade" = true)
    by (destruct Hdom as [-> | ->]; reflexivity).
  assert (Hvalue : match dict_get d "design_domain" with
                   | Some v' => v'
                   | None => PyStr "facade"
                   end = PyStr "facade")
    by (destruct Hdom as [-> | ->]; reflexivity).
  destruct b.
  - have_key Hkeys d "sun_priority". have_key Hkeys d "view_priority".
    have_key Hkeys d "panel_rotation_limit".
    eexists _, _. split; [repeat walk; reflexivity|]. cbn [heap log].
    rewrite Hvalue.
    split; [unfold operation_names, names; cbn [map facade_names app];
            read_ops; reflexivity|].
    split; [unfold operation_param; cbn [hd]; read_ops; reflexivity|].
    split; [unfold operation_param; cbn [last]; read_ops; reflexivity|].
    split; [intros l Hl; now apply frame | reflexivity].
  - eexists _, _. split; [repeat walk; reflexivity|]. cbn [heap log].
    rewrite Hvalue.
    split; [unfold operation_names, names; cbn [map facade_names app];
            read_ops; reflexivity|].
    split; [unfold operation_param; cbn [hd]; read_ops; reflexivity|].
    split; [unfold operation_param; cbn [last]; read_ops; reflexivity|].
    split; [intros l Hl; now apply frame | reflexivity].
Qed.

End FacadeDomain.

Lemma facade_operations_are_framed_witness :
  exists d ops st',
    first_missing d ["grid_size"; "material"; "color_scheme"] = None
    /\ Domains.generate_operations (fun _ _ => ret PyNone) boot_self (PyRef 0)
                                   (mkState [d] [])
       = (Ok ops, st')
    /\ length ops = 8.
Proof.
  exists (default_params_literal ++ [("color_scheme", PyStr "warm")])%list.
  destruct (facade_operations_are_framed
              Domains._generate_floor_plan_operations
              (Domains._generate_urban_operations (fun _ _ => ret PyNone))
              Domains._generate_landscape_operations
              Domains._generate_structure_operations
              Domains._generate_parametric_form_operations
              boot_self
              (mkState [(default_params_literal ++ [("color_scheme", PyStr "warm")])%list] [])
              0 (default_params_literal ++ [("color_scheme", PyStr "warm")])%list
              (PyBool true) true eq_refl eq_refl (or_introl eq_refl))
    as (ops & st' & Hrun & Hnames & _).
  - intros k Hk. vm_compute in Hk.
    repeat (destruct Hk as [<-|Hk]; [discriminate|]). contradiction.
  - reflexivity.
  - reflexivity.
  - exists ops, st'. split; [reflexivity|]. split; [exact Hrun|].
    apply (f_equal (@length _)) in Hnames.
    unfold operation_names, names in Hnames. rewrite !length_map in Hnames.
    exact Hnames.
Defined.

(* ===================================================================== *)
(** ** The operation list and the Rhino code generator                    *)
(* ===================================================================== *)

Lemma getitem_new (h l : list dict) (lg : list log_entry) (i : nat) (d : dict)
      (k : string) (v : pyval) :
  nth_error l i = Some d -> dict_get d k = Some v ->
  getitem (PyRef (i + length h)) k (mkState (h ++ l) lg) = (Ok v, mkState (h ++ l) lg).
Proof.
  intros Hi Hk. unfold getitem, bind, deref. cbn [heap].
  now rewrite nth_error_new, Hi, Hk.
Qed.

Lemma dict_getd_new (h l : list dict) (lg : list log_entry) (i : nat) (d : dict)
      (k : string) (v dflt : pyval) :
  nth_error l i = Some d -> dict_get d k = Some v ->
  dict_getd (PyRef (i + length h)) k dflt (mkState (h ++ l) lg)
  = (Ok v, mkState (h ++ l) lg).
Proof.
  intros Hi Hk. unfold dict_getd, bind, deref. cbn [heap].
  now rewrite nth_error_new, Hi, Hk.
Qed.

Section RhinoDispatch.

Variable floor_plan urban landscape structure parametric_form
  : interp -> pyval -> M (list pyval).
Variable header_before header_after ending_code : string.
Variable facade_code floor_plan_code urban_code landscape_code structure_code
         parametric_form_code : interp -> list pyval -> M string.

Let operations : interp -> pyval -> M (list pyval) :=
  _generate_operations floor_plan urban landscape structure parametric_form.

Let rhino_code : interp -> list pyval -> M string :=
  CodeGen._generate_rhino_code header_before header_after ending_code
                               facade_code floor_plan_code urban_code landscape_code
                               structure_code parametric_form_code.

(** The generator of domain code [_generate_rhino_code] calls for an alias. *)
Let code_for (alias : string) : interp -> list pyval -> M string :=
  if String.eqb alias "floor layout" then floor_plan_code
  else if String.eqb alias "urban design" then urban_code
  else if String.eqb alias "landscape design" then landscape_code
  else if String.eqb alias "structural" then structure_code
  else parametric_form_code.

(** X15: the two functions disagree on the five second names of the
    domains.  For a design domain given by such a name,
    [_generate_operations] knows no generator and returns the two framing
    operations only, while [_generate_rhino_code], given that list, reads
    the name back, puts it into the header with its spaces replaced, and
    takes the code from the generator of that domain. *)
Theorem aliases_get_domain_code_without_operations (self : interp) (st : state)
        (p : loc) (d : dict) (alias : string) :
  nth_error (heap st) p = Some d ->
  first_missing d ["grid_size"; "material"; "color_scheme"] = None ->
  dict_get d "design_domain" = Some (PyStr alias) ->
  In alias domain_aliases ->
  exists ops st',
    operations self (PyRef p) st = (Ok ops, st')
    /\ operation_names (heap st') ops = names ["initialize_design"; "finalize_design"]
    /\ forall code st'',
         code_for alias self ops st' = (Ok code, st'') ->
         rhino_code self ops st'
         = (Ok (header_before ++ CodeGen.replace_char alias " " "_" ++ header_after
                ++ code ++ ending_code), st'').
Proof.
  intros Hp Hk Hd Halias. destruct st as [h lg]. cbn [heap] in *.
  rewrite (start_empty h lg).
  unfold operations, _generate_operations.
  unfold first_missing, dict_mem in Hk. cbn [find] in Hk.
  destruct (dict_get d "grid_size") as [g|] eqn:Eg; [|discriminate].
  destruct (dict_get d "material") as [m|] eqn:Em; [|discriminate].
  destruct (dict_get d "color_scheme") as [c|] eqn:Ec; [|discriminate].
  do 6 step. rewrite Hd.
  assert (Hunknown : forall n, In n known_domains -> py_eq_str (PyStr alias) n = false).
  { intros n Hn. unfold domain_aliases in Halias. simpl in Halias. vm_compute in Hn.
    repeat (destruct Halias as [<-|Halias];
            [repeat (destruct Hn as [<-|Hn]; [reflexivity|]); contradiction|]).
    contradiction. }
  rewrite !Hunknown by (vm_compute; tauto).
  do 3 step.
  eexists _, _. split; [reflexivity|].
  split; [unfold operation_names, names; cbn [map heap]; read_ops; reflexivity|].
  intros code st'' Hcode.
  unfold rhino_code, CodeGen._generate_rhino_code.
  unfold bind at 1.
  change (getitem (PyRef (S (length h))) "params")
    with (getitem (PyRef (1 + length h)) "params").
  erewrite getitem_new; [| reflexivity | reflexivity].
  unfold bind at 1.
  change (dict_getd (PyRef (length h)) "design_domain")
    with (dict_getd (PyRef (0 + length h)) "design_domain").
  erewrite dict_getd_new; [| reflexivity | reflexivity].
  unfold bind at 1. unfold CodeGen.call_replace_spaces, ret at 1.
  unfold bind at 1.
  unfold domain_aliases in Halias. simpl in Halias.
  destruct Halias as [<-|[<-|[<-|[<-|[<-|[]]]]]];
    cbn [py_eq_str]; unfold code_for in Hcode; simpl in Hcode |- *;
    rewrite Hcode; unfold ret; now rewrite !append_assoc.
Qed.

End RhinoDispatch.

Lemma aliases_get_domain_code_without_operations_witness :
  exists d ops st',
    dict_get d "design_domain" = Some (PyStr "floor layout")
    /\ _generate_operations no_operations no_operations no_operations no_operations
                            no_operations boot_self (PyRef 0) (mkState [d] [])
       = (Ok ops, st')
    /\ CodeGen._generate_rhino_code "layer " " begins; " "done"
                                    no_code no_code no_code no_code no_code no_code
                                    boot_self ops st'
       = (Ok "layer floor_layout begins; done", st').
Proof.
  exists [("grid_size", PyFloat 1.0%Q); ("material", PyStr "glass");
          ("color_scheme", PyStr "warm"); ("design_domain", PyStr "floor layout")].
  destruct (aliases_get_domain_code_without_operations
              no_operations no_operations no_operations no_operations no_operations
              "layer " " begins; " "done"
              no_code no_code no_code no_code no_code no_code
              boot_self
              (mkState [[("grid_size", PyFloat 1.0%Q); ("material", PyStr "glass");
                         ("color_scheme", PyStr "warm");
                         ("design_domain", PyStr "floor layout")]] [])
              0 [("grid_size", PyFloat 1.0%Q); ("material", PyStr "glass");
                 ("color_scheme", PyStr "warm");
                 ("design_domain", PyStr "floor layout")]
              "floor layout" eq_refl eq_refl eq_refl (or_introl eq_refl))
    as (ops & st' & Hrun & _ & Hcode).
  exists ops, st'. split; [reflexivity|]. split; [exact Hrun|].
  exact (Hcode "" st' eq_refl).
Defined.
